(** * AI image detector (app.py): preprocessing and decision procedure

    A shallow embedding of [preprocess_image] and [predict_image_class]
    from [app.py], with the pieces of the Python runtime, Pillow, NumPy and
    Streamlit that the two functions touch.

    Numbers.  A Python [float] and a NumPy [float64] scalar are IEEE 754
    binary64 values; they are modelled by Rocq's primitive [float], whose
    operations are the same binary64 operations (round to nearest, ties to
    even).  The scalar that the classifier returns is taken in binary64, so
    [float(...)] is the identity on it.

    Effects.  [st.error] and [trained_model.predict] are recorded in an
    event log that is threaded through every call; a Python exception is an
    explicit [Raise] outcome, and [try ... except Exception] is a combinator
    on computations. *)

From Stdlib Require Import ZArith List String Ascii Bool Lia Floats Uint63.
From Stdlib Require Import DecimalString.
From Stdlib.Strings Require Import Byte.
Import ListNotations.

Set Warnings "-inexact-float".

Local Open Scope string_scope.
Local Open Scope list_scope.

(* ------------------------------------------------------------------ *)
(** ** Python runtime *)

Module Python.

(** An instance of [Exception]: its class name and [str(e)].  Only
    what [except Exception] can catch is represented. *)
Inductive exn : Type :=
| Exception (kind : string) (msg : string).

Definition str (e : exn) : string :=
  match e with Exception _ msg => msg end.

(** The result of evaluating an expression or a call. *)
Inductive outcome (A : Type) : Type :=
| Return (a : A)
| Raise (e : exn).
Arguments Return {A} a.
Arguments Raise {A} e.

(** [needle in haystack] on [str]. *)
Fixpoint str_in (needle haystack : string) : bool :=
  if String.prefix needle haystack then true
  else match haystack with
       | EmptyString => false
       | String _ rest => str_in needle rest
       end.

(** [seq[i]] for a non-negative index. *)
Definition getitem {A : Type} (seq : list A) (i : nat) : outcome A :=
  match nth_error seq i with
  | Some a => Return a
  | None =>
      Raise (Exception "IndexError"
               ("index " ++ NilEmpty.string_of_uint (Nat.to_uint i)
                ++ " is out of bounds for axis 0 with size "
                ++ NilEmpty.string_of_uint (Nat.to_uint (List.length seq))))
  end.

(** [d[k]] for a dict with integer keys, kept in insertion order. *)
Fixpoint dict_getitem {V : Type} (d : list (nat * V)) (k : nat) : outcome V :=
  match d with
  | [] => Raise (Exception "KeyError" (NilEmpty.string_of_uint (Nat.to_uint k)))
  | (k', v) :: d' => if Nat.eqb k' k then Return v else dict_getitem d' k
  end.

(** [float(x)] on a binary64 scalar. *)
Definition float_ (x : float) : float := x.

(** [x >= y] on floats: false as soon as one side is NaN. *)
Definition ge (x y : float) : bool := PrimFloat.leb y x.

End Python.
Import Python.

(* ------------------------------------------------------------------ *)
(** ** Pillow images *)

Module PIL.

(** The modes whose bands are 8-bit samples.  Modes with other sample
    types (["1"], ["I"], ["F"], ["I;16"]) are not represented. *)
Inductive Mode : Type :=
| L | P | LA | PA | RGB | RGBA | RGBX | CMYK | YCbCr | LAB | HSV.

Definition mode_name (m : Mode) : string :=
  match m with
  | L => "L" | P => "P" | LA => "LA" | PA => "PA"
  | RGB => "RGB" | RGBA => "RGBA" | RGBX => "RGBX" | CMYK => "CMYK"
  | YCbCr => "YCbCr" | LAB => "LAB" | HSV => "HSV"
  end.

(** [Image.getmodebands]. *)
Definition getmodebands (m : Mode) : nat :=
  match m with
  | L | P => 1
  | LA | PA => 2
  | RGB | YCbCr | LAB | HSV => 3
  | RGBA | RGBX | CMYK => 4
  end.

(** A loaded image: [size] is (width, height) and [im] is the pixel
    buffer, row by row, the bands of a pixel next to each other. *)
Record Image : Type := mkImage {
  mode : Mode;
  size : nat * nat;
  im : list byte
}.

Definition width (img : Image) : nat := fst (size img).
Definition height (img : Image) : nat := snd (size img).
Definition bands (img : Image) : nat := getmodebands (mode img).

(** The buffer holds exactly width * height pixels. *)
Definition complete (img : Image) : bool :=
  Nat.eqb (List.length (im img)) (width img * height img * bands img).

(** Band [c] of the pixel in column [x], row [y]. *)
Definition getband (img : Image) (x y c : nat) : option byte :=
  if (x <? width img)%nat && (y <? height img)%nat && (c <? bands img)%nat
  then nth_error (im img) ((y * width img + x) * bands img + c)
  else None.

(** RGBA to RGB on the buffer: the fourth byte of every pixel goes. *)
Fixpoint drop_alpha (buf : list byte) : list byte :=
  match buf with
  | r :: g :: b :: _ :: rest => r :: g :: b :: drop_alpha rest
  | _ => []
  end.

(** [img.convert('RGB')] for an image in mode RGBA, the one conversion
    the program asks for. *)
Definition convert_RGB (img : Image) : Image :=
  {| mode := RGB; size := size img; im := drop_alpha (im img) |}.

End PIL.

(* ------------------------------------------------------------------ *)
(** ** NumPy arrays *)

Module np.

(** A C-contiguous array: its shape and its elements in row-major
    order. *)
Record ndarray (A : Type) : Type := mkArray {
  shape : list nat;
  data : list A
}.
Arguments mkArray {A} shape data.
Arguments shape {A} n.
Arguments data {A} n.

(** [np.array(image)]: (height, width) for a single band, else
    (height, width, bands), dtype uint8. *)
Definition array (img : PIL.Image) : ndarray byte :=
  {| shape := if Nat.eqb (PIL.bands img) 1
              then [PIL.height img; PIL.width img]
              else [PIL.height img; PIL.width img; PIL.bands img];
     data := PIL.im img |}.

(** The binary64 value of a uint8 sample. *)
Definition u8_to_float (b : byte) : float :=
  PrimFloat.of_uint63 (Uint63.of_Z (Z.of_N (Byte.to_N b))).

(** [a / d] for a uint8 array and a Python float: a float64 array. *)
Definition true_divide (a : ndarray byte) (d : float) : ndarray float :=
  {| shape := shape a;
     data := map (fun b => PrimFloat.div (u8_to_float b) d) (data a) |}.

(** [np.expand_dims(a, axis)] for a non-negative axis. *)
Definition expand_dims {A : Type} (a : ndarray A) (axis : nat)
  : outcome (ndarray A) :=
  if (axis <=? List.length (shape a))%nat
  then Return {| shape := firstn axis (shape a) ++ 1 :: skipn axis (shape a);
                 data := data a |}
  else Raise (Exception "AxisError" "axis is out of bounds for array").

(** Row-major offset of a multi-index; [None] when the index has the
    wrong rank or leaves the shape. *)
Fixpoint ravel (acc : nat) (shp idx : list nat) : option nat :=
  match shp, idx with
  | [], [] => Some acc
  | d :: shp', i :: idx' =>
      if (i <? d)%nat then ravel (acc * d + i) shp' idx' else None
  | _, _ => None
  end.

(** [a[i0, i1, ...]] with a full index. *)
Definition item {A : Type} (a : ndarray A) (idx : list nat) : option A :=
  match ravel 0 (shape a) idx with
  | Some k => nth_error (data a) k
  | None => None
  end.

End np.

(* ------------------------------------------------------------------ *)
(** ** The classifier and the event log *)

Module keras.

(** A loaded model: [predict] either raises or returns its rows of
    outputs (the source expects [[prob]]). *)
Record Model : Type := mkModel {
  predict : np.ndarray float -> outcome (list (list float))
}.

End keras.

(** What a run leaves behind: messages written with [st.error] and
    forward passes of the classifier. *)
Inductive event : Type :=
| st_error (msg : string)
| model_predict (batch : np.ndarray float).

Definition World : Type := list event.

(** A computation: from the log so far to an outcome and the new log.
    Effects before a raise are kept, as in Python. *)
Definition Py (A : Type) : Type := World -> outcome A * World.

Definition ret {A : Type} (a : A) : Py A := fun w => (Return a, w).

Definition bind {A B : Type} (c : Py A) (k : A -> Py B) : Py B :=
  fun w =>
    match c w with
    | (Return a, w') => k a w'
    | (Raise e, w') => (Raise e, w')
    end.

Definition lift {A : Type} (o : outcome A) : Py A := fun w => (o, w).

Definition emit (ev : event) : Py unit := fun w => (Return tt, w ++ [ev]).

(** [try: body  except Exception as e: handler(e)]. *)
Definition try_except {A : Type} (body : Py A) (handler : exn -> Py A) : Py A :=
  fun w =>
    match body w with
    | (Return a, w') => (Return a, w')
    | (Raise e, w') => handler e w'
    end.

Declare Scope py_scope.
Delimit Scope py_scope with py.
Notation "x <- c ;; k" := (bind c (fun x => k))
  (at level 61, c at next level, right associativity) : py_scope.
Notation "c ;; k" := (bind c (fun _ => k))
  (at level 61, right associativity) : py_scope.

(** [trained_model.predict(image_batch)]. *)
Definition call_predict (m : keras.Model) (batch : np.ndarray float)
  : Py (list (list float)) :=
  fun w => (keras.predict m batch, w ++ [model_predict batch]).

(* ------------------------------------------------------------------ *)
(** ** Configuration (app.py, lines 7-13) *)

Definition IMG_WIDTH : nat := 224.
Definition IMG_HEIGHT : nat := 224.
Definition PREDICTION_THRESHOLD : float := 0.5%float.
Definition CLASS_LABELS : list (nat * string) :=
  [(0, "Authentic (Real) Image"); (1, "AI-Generated Image")].

(* ------------------------------------------------------------------ *)
(** ** Image preprocessing (app.py, lines 32-56) *)

Section Preprocessing.

(** [Image.resize], Pillow's own code: it decodes the pixels if the file
    has not been loaded yet and resamples them; it may raise.  The
    program relies on it as a black box. *)
Variable resize : PIL.Image -> nat * nat -> outcome PIL.Image.

Definition preprocess_image (image_pil : PIL.Image)
  : Py (option (np.ndarray float)) :=
  try_except
    (image_resized <- lift (resize image_pil (IMG_WIDTH, IMG_HEIGHT)) ;;
     let image_resized :=
       if String.eqb (PIL.mode_name (PIL.mode image_resized)) "RGBA"
       then PIL.convert_RGB image_resized
       else image_resized in
     let image_array := np.array image_resized in
     let image_array := np.true_divide image_array 255.0%float in
     image_batch <- lift (np.expand_dims image_array 0) ;;
     ret (Some image_batch))%py
    (fun e =>
       (emit (st_error ("Error preprocessing image: " ++ str e)) ;;
        ret None)%py).

End Preprocessing.

(* ------------------------------------------------------------------ *)
(** ** Prediction (app.py, lines 59-89) *)

Definition predict_image_class
  (image_batch : option (np.ndarray float))
  (trained_model : option keras.Model) : Py (string * float) :=
  match trained_model, image_batch with
  | Some model, Some batch =>
      try_except
        (predictions <- call_predict model batch ;;
         row <- lift (getitem predictions 0) ;;
         confidence_ai <- lift (getitem row 0) ;;
         let '(predicted_class_index, final_confidence) :=
           if ge confidence_ai PREDICTION_THRESHOLD
           then (1, confidence_ai)
           else (0, PrimFloat.sub 1%float confidence_ai) in
         predicted_class_label <-
           lift (dict_getitem CLASS_LABELS predicted_class_index) ;;
         ret (predicted_class_label, float_ final_confidence))%py
        (fun e =>
           (emit (st_error ("Error during prediction: " ++ str e)) ;;
            ret ("Error during prediction", 0.0%float))%py)
  | _, _ => ret ("Error", 0.0%float)
  end.

(** The caller's test on the returned label (app.py, line 132):
    ["Error" not in predicted_label]. *)
Definition shows_prediction (predicted_label : string) : bool :=
  negb (str_in "Error" predicted_label).

(** The run reached [return predicted_class_label, float(final_confidence)]:
    both arguments are present, the forward pass returned and its output
    has an element [0][0]. *)
Definition classified
  (image_batch : option (np.ndarray float))
  (trained_model : option keras.Model) : bool :=
  match trained_model, image_batch with
  | Some model, Some batch =>
      match keras.predict model batch with
      | Return ((_ :: _) :: _) => true
      | _ => false
      end
  | _, _ => false
  end.

(* ------------------------------------------------------------------ *)
(** ** Concrete collaborators, used to run the program on examples *)

Module Examples.

(** Nearest-neighbour resampling ([Image.NEAREST]); an incomplete
    buffer is a truncated file. *)
Definition pixel_at (img : PIL.Image) (x y : nat) : list byte :=
  map (fun c => nth ((y * PIL.width img + x) * PIL.bands img + c)
                    (PIL.im img) x00)
      (seq 0 (PIL.bands img)).

Definition resize_nearest (img : PIL.Image) (sz : nat * nat)
  : outcome PIL.Image :=
  if PIL.complete img then
    Return {| PIL.mode := PIL.mode img;
              PIL.size := sz;
              PIL.im :=
                flat_map
                  (fun y =>
                     flat_map
                       (fun x => pixel_at img (x * PIL.width img / fst sz)
                                              (y * PIL.height img / snd sz))
                       (seq 0 (fst sz)))
                  (seq 0 (snd sz)) |}
  else Raise (Exception "OSError" "image file is truncated").

(** A classifier that answers [[p]] whatever the batch. *)
Definition constant_model (p : float) : keras.Model :=
  {| keras.predict := fun _ => Return [[p]] |}.

(** A classifier whose forward pass raises. *)
Definition failing_model : keras.Model :=
  {| keras.predict := fun _ =>
       Raise (Exception "ValueError"
                "Input 0 of layer is incompatible with the layer") |}.

Definition empty_batch : np.ndarray float :=
  {| np.shape := [1; 0; 0; 3]; np.data := [] |}.

(** One-pixel images in several modes, and a 2 x 2 image whose buffer
    stops after the first pixel. *)
Definition red_rgba : PIL.Image :=
  {| PIL.mode := PIL.RGBA; PIL.size := (1, 1); PIL.im := [xff; x00; x00; xff] |}.
Definition grey : PIL.Image :=
  {| PIL.mode := PIL.L; PIL.size := (1, 1); PIL.im := [x80] |}.
Definition lab_pixel : PIL.Image :=
  {| PIL.mode := PIL.LAB; PIL.size := (1, 1); PIL.im := [x80; x00; x00] |}.
Definition truncated : PIL.Image :=
  {| PIL.mode := PIL.RGB; PIL.size := (2, 2); PIL.im := [xff; x00; x00] |}.

(** The largest binary64 value below one half. *)
Definition below_half : float := 0x1.fffffffffffffp-2%float.

End Examples.

(* ------------------------------------------------------------------ *)
(** ** Model loading (app.py, lines 17-29) *)

Definition MODEL_PATH : string := "ai_image_detector.h5".

Section Loading.

(** [tf.keras.models.load_model], TensorFlow's own code: it reads the file
    and may raise. *)
Variable load_model : string -> outcome keras.Model.

(** The body of [load_trained_model].  Under [st.cache_resource] it runs
    on the first call with a given path; later calls reuse its result. *)
Definition load_trained_model (model_path : string)
  : Py (option keras.Model) :=
  try_except
    (model <- lift (load_model model_path) ;;
     ret (Some model))%py
    (fun e =>
       (emit (st_error ("Error loading model: " ++ str e)) ;;
        emit (st_error ("Please ensure '" ++ model_path
                        ++ "' is a valid Keras model file and TensorFlow is correctly installed.")) ;;
        emit (st_error "If you haven't trained a model yet, this app won't work.") ;;
        ret None)%py).

End Loading.

(* ------------------------------------------------------------------ *)
(** ** The page (app.py, lines 105-153) *)

Module st.

(** What the script puts on the page, in order.  [core] carries the
    events of the functions above: every [st.error] box and every forward
    pass of the classifier. *)
Inductive element : Type :=
| core (ev : event)
| subheader (body : string)
| image (img : PIL.Image) (caption : string)
| info (body : string)
| success (body : string)
| warning (body : string)
| write (body : string).

End st.

Definition Page : Type := list st.element.

(** A step of the script: from the page so far to an outcome and the new
    page. *)
Definition UI (A : Type) : Type := Page -> outcome A * Page.

Definition ui_ret {A : Type} (a : A) : UI A := fun pg => (Return a, pg).

Definition ui_bind {A B : Type} (c : UI A) (k : A -> UI B) : UI B :=
  fun pg =>
    match c pg with
    | (Return a, pg') => k a pg'
    | (Raise e, pg') => (Raise e, pg')
    end.

Definition ui_lift {A : Type} (o : outcome A) : UI A := fun pg => (o, pg).

Definition show (el : st.element) : UI unit := fun pg => (Return tt, pg ++ [el]).

(** A call of one of the functions above from the script: its events go
    to the page in the order they happened. *)
Definition run_core {A : Type} (c : Py A) : UI A :=
  fun pg => let '(o, w) := c [] in (o, pg ++ map st.core w).

Declare Scope ui_scope.
Delimit Scope ui_scope with ui.
Notation "x <- c ;; k" := (ui_bind c (fun x => k))
  (at level 61, c at next level, right associativity) : ui_scope.
Notation "c ;; k" := (ui_bind c (fun _ => k))
  (at level 61, right associativity) : ui_scope.

(** Reading a local variable that may not have been assigned. *)
Definition name_lookup {A : Type} (name : string) (v : option A) : outcome A :=
  match v with
  | Some a => Return a
  | None => Raise (Exception "NameError" ("name '" ++ name ++ "' is not defined"))
  end.

Definition is_not_None {A : Type} (v : option A) : bool :=
  match v with Some _ => true | None => false end.

Definition is_None {A : Type} (v : option A) : bool := negb (is_not_None v).

(** The file handed over by [st.sidebar.file_uploader]. *)
Record UploadedFile : Type := mkUploadedFile {
  name : string;
  getvalue : list byte
}.

Section Script.

Variable resize : PIL.Image -> nat * nat -> outcome PIL.Image.

(** [Image.open]: Pillow identifies the format and may raise. *)
Variable Image_open : UploadedFile -> outcome PIL.Image.

(** [st.image] has to encode the picture before it can show it, which
    can raise on data Pillow cannot decode. *)
Variable st_image : PIL.Image -> outcome unit.

(** [format(confidence, ".2%")], the Python runtime's float formatting. *)
Variable format_percent : float -> string.

(** [with col1:] (lines 108-118).  It returns the two variables the
    second column reads: [uploaded_file], reset to [None] when the image
    could not be opened or shown, and [image], assigned once [Image.open]
    has returned. *)
Definition column1 (uploaded_file : option UploadedFile)
  : UI (option UploadedFile * option PIL.Image) :=
  (show (st.subheader "Uploaded Image") ;;
   match uploaded_file with
   | Some file =>
       match Image_open file with
       | Return image =>
           match st_image image with
           | Return _ =>
               show (st.image image "Uploaded Image.") ;;
               ui_ret (uploaded_file, Some image)
           | Raise e =>
               show (st.core (st_error ("Error displaying image: " ++ str e))) ;;
               ui_ret (None, Some image)
           end
       | Raise e =>
           show (st.core (st_error ("Error displaying image: " ++ str e))) ;;
           ui_ret (None, None)
       end
   | None =>
       show (st.info "Please upload an image using the sidebar.") ;;
       ui_ret (uploaded_file, None)
   end)%ui.

(** [with col2:] (lines 120-153).  [button] is what
    [st.sidebar.button] returns in this run. *)
Definition column2
  (uploaded_file : option UploadedFile) (image : option PIL.Image)
  (model : option keras.Model) (button : bool) : UI unit :=
  (show (st.subheader "Prediction Results") ;;
   if is_not_None uploaded_file && is_not_None model then
     if button then
       image <- ui_lift (name_lookup "image" image) ;;
       processed_image_batch <- run_core (preprocess_image resize image) ;;
       if is_not_None processed_image_batch then
         result <- run_core (predict_image_class processed_image_batch model) ;;
         let '(predicted_label, confidence) := result in
         if shows_prediction predicted_label then
           ai_generated <- ui_lift (dict_getitem CLASS_LABELS 1) ;;
           (if String.eqb predicted_label ai_generated
            then show (st.core (st_error ("**Prediction: " ++ predicted_label ++ "**")))
            else show (st.success ("**Prediction: " ++ predicted_label ++ "**"))) ;;
           show (st.write ("**Confidence:** " ++ format_percent confidence))
         else
           show (st.warning "Could not make a prediction due to an error.")
       else ui_ret tt
     else if is_None model then
       show (st.warning "Model not loaded. Please check the `MODEL_PATH` and ensure the model file exists.")
     else
       show (st.info "Click the 'Classify Image' button in the sidebar to get the prediction.")
   else if is_None model && is_not_None uploaded_file then
     show (st.core (st_error "Model could not be loaded. Please check the console for errors and ensure the model path is correct."))
   else
     show (st.info "Upload an image and click 'Classify Image' to see the results here."))%ui.

(** Both columns, one run of the script. *)
Definition columns
  (model : option keras.Model) (uploaded_file : option UploadedFile)
  (button : bool) : UI unit :=
  (vars <- column1 uploaded_file ;;
   column2 (fst vars) (snd vars) model button)%ui.

End Script.

(** The batches the classifier was run on, as the page records them. *)
Fixpoint forward_passes (pg : Page) : list (np.ndarray float) :=
  match pg with
  | [] => []
  | st.core (model_predict batch) :: rest => batch :: forward_passes rest
  | _ :: rest => forward_passes rest
  end.

(** Number of elements of an array of the given shape. *)
Definition shape_size (shp : list nat) : nat := fold_right Nat.mul 1 shp.

(** Collaborators for running the script on examples. *)
Module ScriptExamples.

Definition a_file : UploadedFile :=
  {| name := "photo.png"; getvalue := [x89; x50; x4e; x47] |}.

(** Every upload decodes to the one-pixel RGBA image. *)
Definition open_red (f : UploadedFile) : outcome PIL.Image :=
  Return Examples.red_rgba.

Definition open_fails (f : UploadedFile) : outcome PIL.Image :=
  Raise (Exception "UnidentifiedImageError" "cannot identify image file").

Definition show_ok (img : PIL.Image) : outcome unit := Return tt.

(** A stand-in for the formatter: it only names the branch. *)
Definition format_stub (x : float) : string :=
  if PrimFloat.leb 0.5 x then "high" else "low".

Definition load_missing (path : string) : outcome keras.Model :=
  Raise (Exception "OSError" ("No file or directory found at " ++ path)).

Definition resize_fails (img : PIL.Image) (sz : nat * nat) : outcome PIL.Image :=
  Raise (Exception "OSError" "image file is truncated").

End ScriptExamples.

(* ------------------------------------------------------------------ *)
(** ** Binary64 constants on the specification side *)

Module Binary64.

Local Open Scope Z_scope.

(** [Prim2SF 0.5] and [Prim2SF 1]. *)
Definition SF_half : spec_float := S754_finite false 4503599627370496 (-53).
Definition SF_one : spec_float := S754_finite false 4503599627370496 (-52).

(** The binary64 values from one half to one: exponent [-53] with a
    full mantissa, or one itself. *)
Definition in_upper_half (r : spec_float) : Prop :=
  (exists m, r = S754_finite false m (-53) /\ 2 ^ 52 <= Zpos m < 2 ^ 53)
  \/ r = SF_one.

End Binary64.

(* ------------------------------------------------------------------ *)
(** * Properties *)

Import Examples.

(** ** Running the combinators *)

(** Unfold a run of [predict_image_class] down to the classifier's
    answer. *)
Ltac run_predict :=
  unfold predict_image_class, try_except, bind, call_predict, emit, ret, lift.

Lemma try_except_return {A : Type} (body : Py A) handler w a w' :
  body w = (Return a, w') -> try_except body handler w = (Return a, w').
Proof. intros H. unfold try_except. now rewrite H. Qed.

(** A computation built from [try_except] with a handler that returns
    never raises. *)
Lemma try_except_total {A : Type} (body : Py A) handler w :
  (forall e w1, exists a w2, handler e w1 = (Return a, w2)) ->
  exists a w', try_except body handler w = (Return a, w').
Proof.
  intros Hh. unfold try_except.
  destruct (body w) as [[a|e] w1].
  - now exists a, w1.
  - apply Hh.
Qed.

(** ** Binary64 comparisons *)

Lemma SFcompare_Lt_swap (x y : spec_float) :
  SFcompare x y = Some Lt -> SFcompare y x = Some Gt.
Proof.
  destruct x as [sx|sx| |sx mx ex], y as [sy|sy| |sy my ey]; simpl;
    try destruct sx; try destruct sy; try congruence.
  - rewrite (Z.compare_antisym ex ey).
    destruct (ex ?= ey)%Z; simpl; try congruence.
    rewrite (ZC4 my mx).
    destruct (Pos.compare_cont Eq mx my); simpl; congruence.
  - rewrite (Z.compare_antisym ex ey).
    destruct (ex ?= ey)%Z; simpl; try congruence.
    rewrite (ZC4 my mx).
    destruct (Pos.compare_cont Eq mx my); simpl; congruence.
Qed.

(** [x < y] rules out [x >= y]. *)
Lemma ltb_not_ge (x y : float) :
  PrimFloat.ltb x y = true -> ge x y = false.
Proof.
  unfold ge. rewrite FloatAxioms.ltb_spec, FloatAxioms.leb_spec.
  unfold SFltb, SFleb.
  destruct (SFcompare (Prim2SF x) (Prim2SF y)) as [[| |]|] eqn:E;
    try discriminate.
  intros _. now rewrite (SFcompare_Lt_swap _ _ E).
Qed.

(** ** The decision procedure *)

Lemma predict_image_class_decides model batch p rest rows w :
  keras.predict model batch = Return ((p :: rest) :: rows) ->
  predict_image_class (Some batch) (Some model) w =
    (Return (if ge p PREDICTION_THRESHOLD
             then ("AI-Generated Image", p)
             else ("Authentic (Real) Image", PrimFloat.sub 1%float p)),
     w ++ [model_predict batch]).
Proof.
  intros H. run_predict. rewrite H. simpl.
  now destruct (ge p PREDICTION_THRESHOLD).
Qed.

Lemma predict_image_class_total image_batch trained_model w :
  exists label confidence w',
    predict_image_class image_batch trained_model w =
      (Return (label, confidence), w').
Proof.
  unfold predict_image_class.
  destruct trained_model as [model|], image_batch as [batch|];
    try (now eexists _, _, _).
  match goal with
  | |- context [try_except ?b ?h w] =>
      destruct (try_except_total b h w) as [[l c] [w' E]]
  end.
  - intros e w1. now eexists _, _.
  - now exists l, c, w'.
Qed.

(** C1. When the classifier's output [p] satisfies [p >= T] (with
    [T = PREDICTION_THRESHOLD = 0.5]), [predict_image_class] returns the
    label "AI-Generated Image" with confidence [p]; the only effect is
    the forward pass.  The boundary [p = T] satisfies the condition. *)
Theorem ai_generated_at_or_above_threshold :
  forall model batch p rest rows w,
    keras.predict model batch = Return ((p :: rest) :: rows) ->
    ge p PREDICTION_THRESHOLD = true ->
    predict_image_class (Some batch) (Some model) w =
      (Return ("AI-Generated Image", p), w ++ [model_predict batch])
    /\ ge PREDICTION_THRESHOLD PREDICTION_THRESHOLD = true.
Proof.
  intros model batch p rest rows w Hp Hge. split; [|reflexivity].
  rewrite (predict_image_class_decides _ _ _ _ _ _ Hp). now rewrite Hge.
Qed.

Lemma ai_generated_at_threshold :
  ge 0.5%float PREDICTION_THRESHOLD = true /\
  predict_image_class (Some empty_batch) (Some (constant_model 0.5%float)) [] =
    (Return ("AI-Generated Image", 0.5%float), [model_predict empty_batch]).
Proof.
  split; [reflexivity|].
  exact (proj1 (ai_generated_at_or_above_threshold
                  (constant_model 0.5%float) empty_batch 0.5%float [] [] []
                  eq_refl eq_refl)).
Defined.

(** C2. When the classifier's output [p] is below one half (so for every
    [p] in [0, 0.5)), [predict_image_class] returns the label
    "Authentic (Real) Image" with confidence [1 - p] (binary64
    subtraction); for [p = 0.37] that is [0.63] and for [p = 0.0] it is
    [1.0]. *)
Theorem authentic_below_threshold :
  forall model batch p rest rows w,
    keras.predict model batch = Return ((p :: rest) :: rows) ->
    PrimFloat.ltb p 0.5%float = true ->
    predict_image_class (Some batch) (Some model) w =
      (Return ("Authentic (Real) Image", PrimFloat.sub 1%float p),
       w ++ [model_predict batch])
    /\ PrimFloat.sub 1%float 0.37%float = 0.63%float
    /\ PrimFloat.sub 1%float 0.0%float = 1.0%float.
Proof.
  intros model batch p rest rows w Hp Hlt.
  split; [|split; reflexivity].
  rewrite (predict_image_class_decides _ _ _ _ _ _ Hp).
  now rewrite (ltb_not_ge p PREDICTION_THRESHOLD Hlt).
Qed.

Lemma authentic_at_037 :
  predict_image_class (Some empty_batch) (Some (constant_model 0.37%float)) [] =
    (Return ("Authentic (Real) Image", 0.63%float), [model_predict empty_batch]).
Proof.
  exact (proj1 (authentic_below_threshold
                  (constant_model 0.37%float) empty_batch 0.37%float [] [] []
                  eq_refl eq_refl)).
Defined.

(** ** Binary64 rounding of [1 - p] *)

Section Binary64Rounding.

Import Binary64.
Local Open Scope Z_scope.


Lemma digits2_pos_bounds (m : positive) :
  2 ^ (Zpos (digits2_pos m) - 1) <= Zpos m < 2 ^ Zpos (digits2_pos m).
Proof.
  induction m as [m IH|m IH|]; cbn [digits2_pos].
  - rewrite Pos2Z.inj_succ, Z.pow_succ_r by lia.
    replace (Z.succ (Z.pos (digits2_pos m)) - 1) with (Z.succ (Z.pos (digits2_pos m) - 1)) by lia.
    rewrite Z.pow_succ_r by lia. lia.
  - rewrite Pos2Z.inj_succ, Z.pow_succ_r by lia.
    replace (Z.succ (Z.pos (digits2_pos m)) - 1) with (Z.succ (Z.pos (digits2_pos m) - 1)) by lia.
    rewrite Z.pow_succ_r by lia. lia.
  - simpl. lia.
Qed.

Lemma digits2_pos_unique (m : positive) (d : Z) :
  2 ^ (d - 1) <= Zpos m < 2 ^ d -> Zpos (digits2_pos m) = d.
Proof.
  intros [Hlo Hhi]. pose proof (digits2_pos_bounds m) as [Blo Bhi].
  assert (Hd : 0 < d).
  { destruct (Z.ltb_spec 0 d) as [|Hn]; [assumption|].
    destruct (Z.eq_dec d 0) as [->|]; [simpl in Hhi; lia|].
    rewrite Z.pow_neg_r in Hhi by lia. lia. }
  assert (H1 : Zpos (digits2_pos m) - 1 < d).
  { apply (Z.pow_lt_mono_r_iff 2); lia. }
  assert (H2 : d - 1 < Zpos (digits2_pos m)).
  { apply (Z.pow_lt_mono_r_iff 2); lia. }
  lia.
Qed.

Lemma shr_1_m (mrs : shr_record) :
  0 <= shr_m mrs -> shr_m (shr_1 mrs) = shr_m mrs / 2.
Proof.
  destruct mrs as [m r s]. cbn [shr_m]. intros Hm.
  rewrite <- Z.div2_div.
  destruct m as [|[p|p|]|p]; try reflexivity. lia.
Qed.

Lemma iter_shr_1_m (n : positive) : forall mrs : shr_record,
  0 <= shr_m mrs ->
  shr_m (iter_pos shr_1 n mrs) = shr_m mrs / 2 ^ Zpos n.
Proof.
  induction n as [n IH|n IH|]; intros mrs Hm; cbn [iter_pos].
  - assert (H1 : 0 <= shr_m (shr_1 mrs)).
    { rewrite shr_1_m by assumption. apply Z.div_pos; lia. }
    assert (H2 : 0 <= shr_m (iter_pos shr_1 n (shr_1 mrs))).
    { rewrite IH by assumption. apply Z.div_pos; [assumption|]. apply Z.pow_pos_nonneg; lia. }
    rewrite IH, IH, shr_1_m by assumption.
    rewrite !Z.div_div by (try apply Z.pow_pos_nonneg; try apply Z.mul_pos_pos; try apply Z.pow_pos_nonneg; lia).
    f_equal.
    replace (Z.pos n~1) with (1 + Z.pos n + Z.pos n) by lia.
    rewrite !Z.pow_add_r by lia. lia.
  - assert (H2 : 0 <= shr_m (iter_pos shr_1 n mrs)).
    { rewrite IH by assumption. apply Z.div_pos; [assumption|]. apply Z.pow_pos_nonneg; lia. }
    rewrite IH, IH by assumption.
    rewrite !Z.div_div by (try apply Z.pow_pos_nonneg; lia).
    f_equal.
    replace (Z.pos n~0) with (Z.pos n + Z.pos n) by lia.
    rewrite !Z.pow_add_r by lia. lia.
  - now rewrite shr_1_m.
Qed.

Lemma round_nearest_even_bounds (m : Z) (l : location) :
  m <= round_nearest_even m l <= m + 1.
Proof.
  destruct l as [|[| |]]; simpl; try destruct (Z.even m); lia.
Qed.

Lemma iter_xO (d m : positive) :
  Zpos (Pos.iter xO m d) = Zpos m * 2 ^ Zpos d.
Proof.
  induction d as [|d IH] using Pos.peano_ind.
  - simpl. lia.
  - rewrite Pos.iter_succ, Pos2Z.inj_succ, Z.pow_succ_r by lia.
    rewrite Pos2Z.inj_xO, IH. lia.
Qed.

Lemma bounded_canonical (m : positive) (e : Z) :
  bounded prec emax m e = true ->
  Z.max (Zpos (digits2_pos m) + e - 53) (-1074) = e.
Proof.
  unfold bounded, canonical_mantissa, fexp, SpecFloat.emin, prec, emax.
  intros H. apply andb_prop in H as [H _]. apply Z.eqb_eq in H.
  exact H.
Qed.

Lemma shl_align_higher (m : positive) (e e' : Z) :
  e <= e' -> shl_align m e e' = (m, e).
Proof.
  intros H. unfold shl_align.
  destruct (e' - e) eqn:E; try reflexivity. lia.
Qed.

Lemma shl_align_lower (m : positive) (e e' : Z) :
  e' < e -> Zpos (fst (shl_align m e e')) = Zpos m * 2 ^ (e - e').
Proof.
  intros H. unfold shl_align.
  destruct (e' - e) as [| d | d] eqn:E; try lia.
  cbn [fst]. rewrite iter_xO. f_equal. f_equal. lia.
Qed.

Lemma fexp_binary64 (k : Z) :
  fexp prec emax k = Z.max (k - 53) (-1074).
Proof. reflexivity. Qed.

(** Rounding an integer of exactly [-e] bits at exponent [e]: a value in
    [1/2, 1) rounds into [1/2, 1]. *)
Lemma binary_round_upper_half (N : positive) (e : Z) :
  e <= -54 ->
  2 ^ (- e - 1) <= Zpos N < 2 ^ (- e) ->
  in_upper_half (binary_round prec emax false N e).
Proof.
  intros He HN.
  assert (Hd : Zpos (digits2_pos N) = - e)
    by (apply digits2_pos_unique; exact HN).
  unfold binary_round.
  rewrite Hd, fexp_binary64.
  replace (Z.max (- e + e - 53) (-1074)) with (-53) by lia.
  rewrite shl_align_higher by lia.
  unfold binary_round_aux, shr_fexp.
  cbn [Zdigits2 shr_record_of_loc].
  rewrite Hd, fexp_binary64.
  replace (Z.max (- e + e - 53) (-1074)) with (-53) by lia.
  unfold shr at 1.
  destruct (-53 - e) as [| n | n] eqn:En; try lia.
  set (mrs1 := iter_pos shr_1 n {| shr_m := Z.pos N; shr_r := false; shr_s := false |}).
  assert (Hm1 : shr_m mrs1 = Zpos N / 2 ^ Zpos n).
  { unfold mrs1. rewrite iter_shr_1_m; cbn [shr_m]; [reflexivity | lia]. }
  assert (Hpow : 0 < 2 ^ Zpos n) by (apply Z.pow_pos_nonneg; lia).
  assert (Hlo : 2 ^ (- e - 1) = 2 ^ 52 * 2 ^ Zpos n).
  { rewrite <- Z.pow_add_r by lia. f_equal. lia. }
  assert (Hhi : 2 ^ (- e) = 2 ^ 53 * 2 ^ Zpos n).
  { rewrite <- Z.pow_add_r by lia. f_equal. lia. }
  assert (B1 : 2 ^ 52 <= shr_m mrs1 < 2 ^ 53).
  { rewrite Hm1. split.
    - apply Z.div_le_lower_bound; lia.
    - apply Z.div_lt_upper_bound; lia. }
  pose proof (round_nearest_even_bounds (shr_m mrs1) (loc_of_shr_record mrs1)) as B2.
  set (m2 := round_nearest_even (shr_m mrs1) (loc_of_shr_record mrs1)) in *.
  replace (e + Zpos n) with (-53) by lia.
  destruct (Z.eq_dec m2 (2 ^ 53)) as [E53 | N53].
  - rewrite E53. right. reflexivity.
  - destruct m2 as [| q | q] eqn:Eq; try lia.
    assert (Hq : Zpos (digits2_pos q) = 53) by (apply digits2_pos_unique; lia).
    cbn [Zdigits2]. rewrite Hq.
    left. exists q. split; [reflexivity | lia].
Qed.

Lemma in_upper_half_bounds (r : spec_float) :
  in_upper_half r -> SFleb SF_half r = true /\ SFleb r SF_one = true.
Proof.
  intros [[m2 [-> [Hlo Hhi]]] | ->]; [|split; reflexivity].
  split; unfold SFleb, SFcompare, SF_half, SF_one.
  - change (-53 ?= -53) with Eq.
    change (Pos.compare_cont Eq 4503599627370496 m2)
      with (Pos.compare 4503599627370496 m2).
    destruct (Pos.compare_spec 4503599627370496 m2) as [E | E | E];
      try reflexivity.
    apply Pos2Z.pos_lt_pos in E.
    change (2 ^ 52) with 4503599627370496 in Hlo. lia.
  - reflexivity.
Qed.

Lemma SFsub_one_finite (m : positive) (e : Z) :
  bounded prec emax m e = true -> e <= -54 ->
  in_upper_half (SF64sub SF_one (S754_finite false m e)).
Proof.
  intros Hb He.
  pose proof (bounded_canonical m e Hb) as Hc.
  pose proof (digits2_pos_bounds m) as [_ Hm].
  assert (Hm53 : Zpos m < 2 ^ 53).
  { eapply Z.lt_le_trans; [exact Hm|]. apply Z.pow_le_mono_r; lia. }
  unfold SF64sub, SFsub, SF_one.
  rewrite (Z.min_r (-52) e) by lia.
  unfold cond_Zopp.
  rewrite shl_align_lower by lia.
  rewrite (shl_align_higher m e e) by lia. cbn [fst].
  assert (Hsplit : 2 ^ (- e) = 4503599627370496 * 2 ^ (-52 - e)).
  { change 4503599627370496 with (2 ^ 52).
    rewrite <- Z.pow_add_r by lia. f_equal. lia. }
  assert (Hhalf : 2 ^ (- e) = 2 ^ 53 * 2 ^ (- e - 53)).
  { rewrite <- Z.pow_add_r by lia. f_equal. lia. }
  assert (Hhalf' : 2 ^ (- e - 1) = 2 ^ 52 * 2 ^ (- e - 53)).
  { rewrite <- Z.pow_add_r by lia. f_equal. lia. }
  assert (Hp : 2 ^ 1 <= 2 ^ (- e - 53)) by (apply Z.pow_le_mono_r; lia).
  rewrite <- Hsplit.
  change (2 ^ 1) with 2 in Hp.
  change (2 ^ 53) with 9007199254740992 in Hm53, Hhalf.
  change (2 ^ 52) with 4503599627370496 in Hhalf'.
  destruct (2 ^ (- e) - Z.pos m) as [| N | N] eqn:EN; try lia.
  cbn [binary_normalize].
  apply binary_round_upper_half; [assumption|].
  lia.
Qed.

(** For a binary64 [x] with [0 <= x] and not [1/2 <= x], the rounded
    difference [1 - x] lies between one half and one. *)
Lemma SF64sub_one_bounds (x : spec_float) :
  valid_binary x = true ->
  SFleb (S754_zero false) x = true ->
  SFleb SF_half x = false ->
  SFleb SF_half (SF64sub SF_one x) = true /\
  SFleb (SF64sub SF_one x) SF_one = true.
Proof.
  intros Hv H0 Hh.
  destruct x as [s | s | | s m e].
  - split; reflexivity.
  - destruct s; discriminate.
  - discriminate.
  - destruct s; [discriminate|].
    apply in_upper_half_bounds, SFsub_one_finite; [exact Hv|].
    cbn [valid_binary] in Hv.
    pose proof (bounded_canonical m e Hv) as Hc.
    pose proof (digits2_pos_bounds m) as [Hlo _].
    unfold SFleb, SFcompare, SF_half in Hh.
    destruct (Z.compare_spec (-53) e) as [E | E | E]; try discriminate.
    + exfalso. subst e.
      change (Pos.compare_cont Eq 4503599627370496 m)
        with (Pos.compare 4503599627370496 m) in Hh.
      destruct (Pos.compare_spec 4503599627370496 m) as [E | E | E];
        try discriminate.
      apply Pos2Z.pos_lt_pos in E.
      assert (Hd : Zpos (digits2_pos m) = 53) by lia.
      rewrite Hd in Hlo. change (2 ^ (53 - 1)) with 4503599627370496 in Hlo.
      lia.
    + lia.
Qed.

Lemma one_minus_bounds (p : float) :
  PrimFloat.leb 0 p = true ->
  PrimFloat.leb 0.5 p = false ->
  PrimFloat.leb 0.5 (1 - p) = true /\ PrimFloat.leb (1 - p) 1 = true.
Proof.
  rewrite !FloatAxioms.leb_spec, FloatAxioms.sub_spec.
  change (Prim2SF 0) with (S754_zero false).
  change (Prim2SF 0.5) with SF_half.
  change (Prim2SF 1) with SF_one.
  apply SF64sub_one_bounds, Prim2SF_valid.
Qed.

End Binary64Rounding.

(** ** Confidence range and error outcomes *)

(** C8 (amended).  For a classifier output [p] in [0, 1], the returned
    confidence lies in [0.5, 1.0]: with [p >= 0.5] it is [p]; otherwise it
    is the binary64 difference [1 - p], which is at least [0.5] (and can be
    exactly [0.5], since the subtraction rounds).  A successful
    classification is never reported with confidence below the
    threshold. *)
Theorem confidence_between_half_and_one :
  forall model batch p rest rows w,
    keras.predict model batch = Return ((p :: rest) :: rows) ->
    PrimFloat.leb 0 p = true ->
    PrimFloat.leb p 1 = true ->
    exists label confidence,
      predict_image_class (Some batch) (Some model) w =
        (Return (label, confidence), w ++ [model_predict batch]) /\
      PrimFloat.leb 0.5 confidence = true /\
      PrimFloat.leb confidence 1 = true /\
      (ge p PREDICTION_THRESHOLD = true ->
         label = "AI-Generated Image" /\ confidence = p) /\
      (ge p PREDICTION_THRESHOLD = false ->
         label = "Authentic (Real) Image" /\
         confidence = PrimFloat.sub 1 p).
Proof.
  intros model batch p rest rows w Hp H0 H1.
  rewrite (predict_image_class_decides _ _ _ _ _ _ Hp).
  destruct (ge p PREDICTION_THRESHOLD) eqn:Hge.
  - exists "AI-Generated Image", p.
    repeat split; try assumption; try discriminate.
  - destruct (one_minus_bounds p H0 Hge) as [Hlo Hhi].
    exists "Authentic (Real) Image", (PrimFloat.sub 1 p).
    repeat split; try assumption; try discriminate.
Qed.

Lemma confidence_in_range_at_037 :
  exists label confidence,
    predict_image_class (Some empty_batch) (Some (constant_model 0.37%float)) [] =
      (Return (label, confidence), [] ++ [model_predict empty_batch]) /\
    PrimFloat.leb 0.5 confidence = true /\
    PrimFloat.leb confidence 1 = true /\
    (ge 0.37%float PREDICTION_THRESHOLD = true ->
       label = "AI-Generated Image" /\ confidence = 0.37%float) /\
    (ge 0.37%float PREDICTION_THRESHOLD = false ->
       label = "Authentic (Real) Image" /\
       confidence = PrimFloat.sub 1 0.37%float).
Proof.
  exact (confidence_between_half_and_one
           (constant_model 0.37%float) empty_batch 0.37%float [] [] []
           eq_refl eq_refl eq_refl).
Defined.

(** At the largest binary64 value below one half the Authentic branch is
    taken and the confidence is exactly [0.5], not above it. *)
Lemma confidence_exactly_half_below_threshold :
  PrimFloat.leb 0 below_half = true /\
  PrimFloat.ltb below_half 0.5 = true /\
  predict_image_class (Some empty_batch) (Some (constant_model below_half)) [] =
    (Return ("Authentic (Real) Image", 0.5%float), [model_predict empty_batch]) /\
  PrimFloat.ltb 0.5 (PrimFloat.sub 1 below_half) = false.
Proof. repeat split; reflexivity. Qed.

(** C4.  With no classifier or no tensor, [predict_image_class] returns
    ("Error", 0.0); the event log is unchanged, so the classifier was not
    invoked and nothing was raised or displayed. *)
Theorem unavailable_input_gives_error :
  (forall image_batch w,
      predict_image_class image_batch None w = (Return ("Error", 0.0%float), w))
  /\
  (forall trained_model w,
      predict_image_class None trained_model w = (Return ("Error", 0.0%float), w)).
Proof.
  split.
  - intros [batch|] w; reflexivity.
  - intros [model|] w; reflexivity.
Qed.

(** C5.  When the forward pass raises, [predict_image_class] returns
    ("Error during prediction", 0.0) after writing the message with
    [st.error]; and whatever its arguments, the function returns a pair
    and never raises. *)
Theorem inference_failure_is_caught :
  forall model batch e w,
    keras.predict model batch = Raise e ->
    predict_image_class (Some batch) (Some model) w =
      (Return ("Error during prediction", 0.0%float),
       w ++ [model_predict batch]
         ++ [st_error ("Error during prediction: " ++ str e)])
    /\ (forall image_batch trained_model w0,
          exists label confidence w',
            predict_image_class image_batch trained_model w0 =
              (Return (label, confidence), w')).
Proof.
  intros model batch e w He. split.
  - run_predict. rewrite He. now rewrite <- app_assoc.
  - intros. apply predict_image_class_total.
Qed.

Lemma inference_failure_on_failing_model :
  predict_image_class (Some empty_batch) (Some failing_model) [] =
    (Return ("Error during prediction", 0.0%float),
     [model_predict empty_batch;
      st_error "Error during prediction: Input 0 of layer is incompatible with the layer"]).
Proof.
  exact (proj1 (inference_failure_is_caught failing_model empty_batch
                  (Exception "ValueError"
                     "Input 0 of layer is incompatible with the layer")
                  [] eq_refl)).
Defined.

(** C10.  Neither success label contains "Error" and both failure labels
    do; for every call, the caller's test ["Error" not in label] holds
    exactly when the call reached the classification, in which case the
    label is one of [CLASS_LABELS], and otherwise it is one of the two
    failure labels. *)
Theorem error_substring_separates_outcomes :
  str_in "Error" "Authentic (Real) Image" = false /\
  str_in "Error" "AI-Generated Image" = false /\
  str_in "Error" "Error" = true /\
  str_in "Error" "Error during prediction" = true /\
  forall image_batch trained_model w,
    exists label confidence w',
      predict_image_class image_batch trained_model w =
        (Return (label, confidence), w') /\
      shows_prediction label = classified image_batch trained_model /\
      (if classified image_batch trained_model
       then In label (map snd CLASS_LABELS)
       else label = "Error" \/ label = "Error during prediction").
Proof.
  repeat (split; [reflexivity|]).
  intros image_batch trained_model w.
  destruct trained_model as [model|], image_batch as [batch|];
    try (eexists _, _, _; repeat split; simpl; auto; fail).
  unfold classified.
  destruct (keras.predict model batch) as [[|[|p rest] rows]|e] eqn:E.
  - run_predict. rewrite E. simpl. eexists _, _, _; repeat split; auto.
  - run_predict. rewrite E. simpl. eexists _, _, _; repeat split; auto.
  - rewrite (predict_image_class_decides _ _ _ _ _ w E).
    destruct (ge p PREDICTION_THRESHOLD);
      eexists _, _, _; repeat split; simpl; auto.
  - run_predict. rewrite E. simpl. eexists _, _, _; repeat split; auto.
Qed.

(** ** Preprocessing *)

Lemma mode_is_RGBA (m : PIL.Mode) :
  String.eqb (PIL.mode_name m) "RGBA" =
    match m with PIL.RGBA => true | _ => false end.
Proof. destruct m; reflexivity. Qed.

(** What [preprocess_image] returns once [resize] has returned. *)
Lemma preprocess_image_resized resize image_pil image_resized w :
  resize image_pil (IMG_WIDTH, IMG_HEIGHT) = Return image_resized ->
  let converted :=
    match PIL.mode image_resized with
    | PIL.RGBA => PIL.convert_RGB image_resized
    | _ => image_resized
    end in
  preprocess_image resize image_pil w =
    (Return (Some {| np.shape := 1 :: np.shape (np.array converted);
                     np.data :=
                       map (fun b => PrimFloat.div (np.u8_to_float b) 255)
                           (PIL.im converted) |}),
     w).
Proof.
  intros H converted. unfold preprocess_image.
  apply try_except_return.
  unfold bind, lift, ret. rewrite H, mode_is_RGBA.
  unfold np.expand_dims, np.true_divide.
  cbn [Nat.leb firstn skipn app np.shape np.data np.array].
  subst converted. now destruct (PIL.mode image_resized).
Qed.

Lemma preprocess_image_raised resize image_pil e w :
  resize image_pil (IMG_WIDTH, IMG_HEIGHT) = Raise e ->
  preprocess_image resize image_pil w =
    (Return None, w ++ [st_error ("Error preprocessing image: " ++ str e)]).
Proof.
  intros H. unfold preprocess_image, try_except, bind, lift, emit, ret.
  now rewrite H.
Qed.

Lemma preprocess_image_total resize image_pil w :
  exists r w', preprocess_image resize image_pil w = (Return r, w').
Proof.
  destruct (resize image_pil (IMG_WIDTH, IMG_HEIGHT)) as [r|e] eqn:E.
  - eexists _, _. exact (preprocess_image_resized _ _ _ w E).
  - eexists _, _. exact (preprocess_image_raised _ _ _ w E).
Qed.

(** Dropping alpha keeps the other three bands of every pixel in place. *)
Lemma drop_alpha_length (n : nat) : forall buf,
  List.length buf = n * 4 -> List.length (PIL.drop_alpha buf) = n * 3.
Proof.
  induction n as [|n IH]; intros buf H.
  - destruct buf; [reflexivity | discriminate].
  - destruct buf as [|r [|g [|b [|a rest]]]]; try discriminate.
    cbn [PIL.drop_alpha List.length]. rewrite (IH rest); [lia|].
    cbn [List.length] in H. lia.
Qed.

Lemma drop_alpha_nth_error (k : nat) : forall buf c,
  c < 3 -> k * 4 + 4 <= List.length buf ->
  nth_error (PIL.drop_alpha buf) (k * 3 + c) = nth_error buf (k * 4 + c).
Proof.
  induction k as [|k IH]; intros buf c Hc Hlen;
    destruct buf as [|r [|g [|b [|a rest]]]]; cbn [List.length] in Hlen; try lia.
  - cbn [PIL.drop_alpha Nat.mul Nat.add].
    destruct c as [|[|[|c]]]; try reflexivity. lia.
  - cbn [PIL.drop_alpha].
    replace (S k * 3 + c) with (S (S (S (k * 3 + c)))) by lia.
    replace (S k * 4 + c) with (S (S (S (S (k * 4 + c))))) by lia.
    cbn [nth_error]. apply IH; [assumption | lia].
Qed.

Lemma ravel_batch (d1 d2 d3 y x c : nat) :
  y < d1 -> x < d2 -> c < d3 ->
  np.ravel 0 [1; d1; d2; d3] [0; y; x; c] = Some ((y * d2 + x) * d3 + c).
Proof.
  intros Hy Hx Hc. cbn [np.ravel].
  apply Nat.ltb_lt in Hy, Hx, Hc.
  change (0 <? 1)%nat with true. cbn [Nat.mul Nat.add].
  now rewrite Hy, Hx, Hc.
Qed.

(** Every uint8 sample divided by 255 is a binary64 value in [0, 1]. *)
Lemma u8_scaled_in_unit_interval (b : byte) :
  PrimFloat.leb 0 (PrimFloat.div (np.u8_to_float b) 255) = true /\
  PrimFloat.leb (PrimFloat.div (np.u8_to_float b) 255) 1 = true.
Proof. destruct b; split; vm_compute; reflexivity. Qed.

(** The nearest-neighbour resampler honours the contract of
    [Image.resize]: same mode, requested size, complete buffer. *)
Lemma resize_nearest_contract img sz r :
  resize_nearest img sz = Return r ->
  PIL.mode r = PIL.mode img /\ PIL.size r = sz /\ PIL.complete r = true.
Proof.
  unfold resize_nearest. destruct (PIL.complete img); [|discriminate].
  intros H. injection H as <-. repeat split.
  unfold PIL.complete, PIL.width, PIL.height, PIL.bands.
  cbn [PIL.im PIL.size PIL.mode]. apply Nat.eqb_eq.
  rewrite (flat_map_constant_length (c := fst sz * PIL.getmodebands (PIL.mode img))).
  - rewrite length_seq. lia.
  - intros y _.
    rewrite (flat_map_constant_length (c := PIL.getmodebands (PIL.mode img))).
    + now rewrite length_seq.
    + intros x _. unfold pixel_at. now rewrite length_map, length_seq.
Qed.

(** C3.  For an RGB or RGBA image of any size, once [Image.resize] has
    returned the 224 x 224 image, [preprocess_image] returns a tensor of
    shape (1, 224, 224, 3) whose element [0, y, x, c] is band [c] of the
    resized pixel in column [x], row [y], divided by 255; every element
    lies in [0.0, 1.0]. *)
Theorem rgb_tensor_shape_and_values :
  forall resize image_pil image_resized w,
    PIL.mode image_pil = PIL.RGB \/ PIL.mode image_pil = PIL.RGBA ->
    resize image_pil (IMG_WIDTH, IMG_HEIGHT) = Return image_resized ->
    PIL.mode image_resized = PIL.mode image_pil ->
    PIL.size image_resized = (IMG_WIDTH, IMG_HEIGHT) ->
    PIL.complete image_resized = true ->
    exists image_batch,
      preprocess_image resize image_pil w = (Return (Some image_batch), w) /\
      np.shape image_batch = [1; 224; 224; 3] /\
      List.length (np.data image_batch) = 224 * 224 * 3 /\
      (forall y x c, y < 224 -> x < 224 -> c < 3 ->
         exists b,
           PIL.getband image_resized x y c = Some b /\
           np.item image_batch [0; y; x; c] =
             Some (PrimFloat.div (np.u8_to_float b) 255)) /\
      Forall (fun v => PrimFloat.leb 0 v = true /\ PrimFloat.leb v 1 = true)
             (np.data image_batch).
Proof.
  intros resize image_pil r w Hmode Hres Hsame Hsize Hfull.
  rewrite (preprocess_image_resized _ _ _ w Hres). cbv zeta.
  match goal with
  | |- exists b, (Return (Some ?a), _) = _ /\ _ =>
      exists a; split; [reflexivity|]
  end.
  rewrite <- Hsame in Hmode. clear Hres Hsame.
  destruct r as [rmode rsize buf].
  apply Nat.eqb_eq in Hfull.
  unfold np.array, PIL.getband, PIL.width, PIL.height, PIL.bands,
    IMG_WIDTH, IMG_HEIGHT in *.
  cbn [PIL.mode PIL.size PIL.im] in *. subst rsize.
  cbn [fst snd] in *.
  assert (Hget : forall x y c n, y < 224 -> x < 224 -> c < n ->
            (if (x <? 224)%nat && (y <? 224)%nat && (c <? n)%nat
             then nth_error buf ((y * 224 + x) * n + c) else None) =
            nth_error buf ((y * 224 + x) * n + c)).
  { intros x y c n Hy Hx Hc.
    apply Nat.ltb_lt in Hy, Hx, Hc. now rewrite Hx, Hy, Hc. }
  destruct Hmode as [-> | ->];
    cbn [PIL.convert_RGB PIL.mode PIL.size PIL.im PIL.getmodebands
         Nat.eqb np.shape np.data fst snd] in *.
  - (* RGB: the buffer is used as it is *)
    repeat split.
    + now rewrite length_map.
    + intros y x c Hy Hx Hc.
      assert (Hk : (y * 224 + x) * 3 + c < List.length buf) by lia.
      exists (nth ((y * 224 + x) * 3 + c) buf x00). split.
      * rewrite Hget by assumption. now apply nth_error_nth'.
      * unfold np.item. cbn [np.shape np.data].
        rewrite ravel_batch, nth_error_map by assumption.
        now rewrite (nth_error_nth' _ x00 Hk).
    + apply Forall_map, Forall_forall. intros b _.
      apply u8_scaled_in_unit_interval.
  - (* RGBA: alpha is dropped first *)
    assert (Hlen : List.length buf = 224 * 224 * 4) by lia.
    repeat split.
    + rewrite length_map. now apply drop_alpha_length.
    + intros y x c Hy Hx Hc.
      assert (Hk : (y * 224 + x) * 4 + c < List.length buf) by lia.
      exists (nth ((y * 224 + x) * 4 + c) buf x00). split.
      * rewrite Hget by (try assumption; lia). now apply nth_error_nth'.
      * unfold np.item. cbn [np.shape np.data].
        rewrite ravel_batch, nth_error_map by assumption.
        rewrite drop_alpha_nth_error by (try assumption; lia).
        now rewrite (nth_error_nth' _ x00 Hk).
    + apply Forall_map, Forall_forall. intros b _.
      apply u8_scaled_in_unit_interval.
Qed.

Lemma resize_nearest_returns img sz :
  PIL.complete img = true -> exists r, resize_nearest img sz = Return r.
Proof.
  intros H. unfold resize_nearest. rewrite H. eexists. reflexivity.
Qed.

Lemma rgba_pixel_becomes_rgb_tensor :
  exists image_batch,
    preprocess_image resize_nearest red_rgba [] =
      (Return (Some image_batch), []) /\
    np.shape image_batch = [1; 224; 224; 3].
Proof.
  destruct (resize_nearest_returns red_rgba (IMG_WIDTH, IMG_HEIGHT) eq_refl)
    as [r E].
  destruct (resize_nearest_contract _ _ _ E) as [Hm [Hs Hc]].
  destruct (rgb_tensor_shape_and_values resize_nearest red_rgba r []
              (or_intror eq_refl) E Hm Hs Hc) as [b [Hb [Hshape _]]].
  exists b. split; assumption.
Defined.

(** C6.  When decoding or resizing raises, [preprocess_image] writes the
    message with [st.error] and returns [None]; and whatever the image and
    whatever [resize] does, the function returns and never raises. *)
Theorem preprocessing_failure_is_reported :
  forall resize image_pil e w,
    resize image_pil (IMG_WIDTH, IMG_HEIGHT) = Raise e ->
    preprocess_image resize image_pil w =
      (Return None, w ++ [st_error ("Error preprocessing image: " ++ str e)])
    /\ (forall resize' image_pil' w0,
          exists r w', preprocess_image resize' image_pil' w0 = (Return r, w')).
Proof.
  intros resize image_pil e w H. split.
  - now apply preprocess_image_raised.
  - intros. apply preprocess_image_total.
Qed.

Lemma truncated_file_is_reported :
  preprocess_image resize_nearest truncated [] =
    (Return None,
     [st_error "Error preprocessing image: image file is truncated"]).
Proof.
  exact (proj1 (preprocessing_failure_is_reported resize_nearest truncated
                  (Exception "OSError" "image file is truncated") []
                  eq_refl)).
Defined.

(** C9 (amended).  For an image whose mode is neither RGB nor RGBA, once
    [Image.resize] has returned, [preprocess_image] succeeds and converts
    no channel: the tensor holds the resized buffer, sample by sample,
    divided by 255.  Its shape is (1, 224, 224) for a single-band mode
    and (1, 224, 224, k) for a mode with k > 1 bands; it is
    (1, 224, 224, 3) exactly when the mode has three bands. *)
Theorem other_modes_keep_their_bands :
  forall resize image_pil image_resized w,
    PIL.mode image_pil <> PIL.RGB ->
    PIL.mode image_pil <> PIL.RGBA ->
    resize image_pil (IMG_WIDTH, IMG_HEIGHT) = Return image_resized ->
    PIL.mode image_resized = PIL.mode image_pil ->
    PIL.size image_resized = (IMG_WIDTH, IMG_HEIGHT) ->
    exists image_batch,
      preprocess_image resize image_pil w = (Return (Some image_batch), w) /\
      np.data image_batch =
        map (fun b => PrimFloat.div (np.u8_to_float b) 255)
            (PIL.im image_resized) /\
      np.shape image_batch =
        (if Nat.eqb (PIL.getmodebands (PIL.mode image_pil)) 1
         then [1; 224; 224]
         else [1; 224; 224; PIL.getmodebands (PIL.mode image_pil)]) /\
      (PIL.mode image_pil = PIL.L -> np.shape image_batch = [1; 224; 224]) /\
      (np.shape image_batch = [1; 224; 224; 3] <->
       PIL.getmodebands (PIL.mode image_pil) = 3).
Proof.
  intros resize image_pil r w Hrgb Hrgba Hres Hsame Hsize.
  rewrite (preprocess_image_resized _ _ _ w Hres). cbv zeta.
  match goal with
  | |- exists b, (Return (Some ?a), _) = _ /\ _ =>
      exists a; split; [reflexivity|]
  end.
  destruct r as [rmode rsize buf].
  unfold np.array, PIL.width, PIL.height, PIL.bands, IMG_WIDTH, IMG_HEIGHT in *.
  cbn [PIL.mode PIL.size PIL.im] in *. subst rsize rmode.
  destruct (PIL.mode image_pil); try congruence;
    cbn [PIL.mode PIL.size PIL.im PIL.getmodebands Nat.eqb np.shape np.data
         fst snd];
    repeat split; try reflexivity; try discriminate; congruence.
Qed.

Lemma grey_pixel_becomes_flat_tensor :
  exists image_batch,
    preprocess_image resize_nearest grey [] = (Return (Some image_batch), []) /\
    np.shape image_batch = [1; 224; 224].
Proof.
  destruct (resize_nearest_returns grey (IMG_WIDTH, IMG_HEIGHT) eq_refl)
    as [r E].
  destruct (resize_nearest_contract _ _ _ E) as [Hm [Hs _]].
  destruct (other_modes_keep_their_bands resize_nearest grey r []
              ltac:(discriminate) ltac:(discriminate) E Hm Hs)
    as [b [Hb [_ [_ [Hshape _]]]]].
  exists b. split; [assumption | exact (Hshape eq_refl)].
Defined.

(** A LAB image is neither RGB nor RGBA, and its tensor has shape
    (1, 224, 224, 3). *)
Lemma lab_image_has_three_channels :
  PIL.mode lab_pixel <> PIL.RGB /\
  PIL.mode lab_pixel <> PIL.RGBA /\
  exists image_batch,
    preprocess_image resize_nearest lab_pixel [] =
      (Return (Some image_batch), []) /\
    np.shape image_batch = [1; 224; 224; 3].
Proof.
  split; [discriminate|]. split; [discriminate|].
  destruct (resize_nearest_returns lab_pixel (IMG_WIDTH, IMG_HEIGHT) eq_refl)
    as [r E].
  destruct (resize_nearest_contract _ _ _ E) as [Hm [Hs _]].
  rewrite (preprocess_image_resized _ _ _ [] E). cbv zeta.
  eexists. split; [reflexivity|].
  destruct r as [rmode rsize buf].
  cbn [PIL.mode PIL.size] in Hm, Hs. subst rmode rsize.
  reflexivity.
Qed.

(** The pair returned by [predict_image_class] is computed from element
    [0][0] of the classifier's output alone: the other elements and rows,
    the model, the batch and the page do not enter it. *)
Lemma verdict_depends_only_on_first_output :
  forall model1 model2 batch1 batch2 p rest1 rows1 rest2 rows2 w1 w2,
    keras.predict model1 batch1 = Return ((p :: rest1) :: rows1) ->
    keras.predict model2 batch2 = Return ((p :: rest2) :: rows2) ->
    fst (predict_image_class (Some batch1) (Some model1) w1) =
    fst (predict_image_class (Some batch2) (Some model2) w2).
Proof.
  intros model1 model2 batch1 batch2 p rest1 rows1 rest2 rows2 w1 w2 H1 H2.
  now rewrite (predict_image_class_decides _ _ _ _ _ w1 H1),
              (predict_image_class_decides _ _ _ _ _ w2 H2).
Qed.

(** ** The scenarios of the specification *)

Example scenario_A :
  fst (predict_image_class (Some empty_batch) (Some (constant_model 0.0%float)) [])
  = Return ("Authentic (Real) Image", 1.0%float).
Proof. reflexivity. Qed.

Example scenario_B :
  fst (predict_image_class (Some empty_batch) (Some (constant_model 1.0%float)) [])
  = Return ("AI-Generated Image", 1.0%float).
Proof. reflexivity. Qed.

Example scenario_D :
  fst (predict_image_class (Some empty_batch) (Some (constant_model 0.5%float)) [])
  = Return ("AI-Generated Image", 0.5%float).
Proof. reflexivity. Qed.

Example scenario_E :
  predict_image_class (Some empty_batch) None [] = (Return ("Error", 0.0%float), []).
Proof. reflexivity. Qed.

(** A NaN from the classifier compares false with the threshold and is
    reported as Authentic with confidence NaN. *)
Example nan_output :
  fst (predict_image_class (Some empty_batch) (Some (constant_model nan)) [])
  = Return ("Authentic (Real) Image", nan).
Proof. reflexivity. Qed.

(* ------------------------------------------------------------------ *)
(** * Further properties of the program *)

(** ** Model loading *)

(** X1.  [load_trained_model] never raises.  It returns the model, with
    nothing displayed, when [load_model] returns; when [load_model]
    raises it returns [None] after exactly three [st.error] boxes: the
    exception's text, a hint that quotes the path, and a note on
    training. *)
Theorem load_trained_model_outcomes :
  forall load_model model_path w,
    exists model w',
      load_trained_model load_model model_path w = (Return model, w') /\
      (model = None <-> exists e, load_model model_path = Raise e) /\
      (forall m, load_model model_path = Return m -> model = Some m /\ w' = w) /\
      (forall e, load_model model_path = Raise e ->
         w' = w ++ [st_error ("Error loading model: " ++ str e);
                    st_error ("Please ensure '" ++ model_path
                              ++ "' is a valid Keras model file and TensorFlow is correctly installed.");
                    st_error "If you haven't trained a model yet, this app won't work."]).
Proof.
  intros load_model model_path w.
  unfold load_trained_model, try_except, bind, lift, emit, ret.
  destruct (load_model model_path) as [m|e].
  - exists (Some m), w. split; [reflexivity|].
    split; [split; [discriminate | intros [e He]; discriminate]|].
    split.
    + intros m' H. injection H as ->. now split.
    + intros e H. discriminate.
  - eexists None, _. split; [reflexivity|].
    split; [split; [intros _; now exists e | reflexivity]|].
    split.
    + intros m H. discriminate.
    + intros e' H. injection H as <-. now rewrite <- !app_assoc.
Qed.

(** ** Preprocessing *)

(** X2.  [preprocess_image] returns [None] exactly when [Image.resize]
    raised, and it writes to the page exactly then: one [st.error] box on
    failure, nothing on success. *)
Theorem preprocess_none_iff_resize_raised :
  forall resize image_pil w,
    exists result w',
      preprocess_image resize image_pil w = (Return result, w') /\
      (result = None <->
       exists e, resize image_pil (IMG_WIDTH, IMG_HEIGHT) = Raise e) /\
      (result = None ->
       exists e, w' = w ++ [st_error ("Error preprocessing image: " ++ str e)]) /\
      (result <> None -> w' = w).
Proof.
  intros resize image_pil w.
  destruct (resize image_pil (IMG_WIDTH, IMG_HEIGHT)) as [r|e] eqn:E.
  - rewrite (preprocess_image_resized _ _ _ w E). cbv zeta.
    eexists _, _. split; [reflexivity|].
    split; [split; [discriminate | intros [e He]; discriminate]|].
    split; [discriminate | reflexivity].
  - rewrite (preprocess_image_raised _ _ _ w E).
    eexists _, _. split; [reflexivity|].
    split; [split; [intros _; now exists e | reflexivity]|].
    split; [intros _; now exists e | intros H; now contradiction H].
Qed.

(** X3.  Whatever the mode, when [Image.resize] returns an image with a
    complete buffer the tensor is well formed: it holds as many elements
    as its shape announces. *)
Theorem tensor_size_matches_shape :
  forall resize image_pil image_resized w,
    resize image_pil (IMG_WIDTH, IMG_HEIGHT) = Return image_resized ->
    PIL.complete image_resized = true ->
    exists image_batch,
      preprocess_image resize image_pil w = (Return (Some image_batch), w) /\
      List.length (np.data image_batch) = shape_size (np.shape image_batch).
Proof.
  intros resize image_pil r w Hres Hfull.
  rewrite (preprocess_image_resized _ _ _ w Hres). cbv zeta.
  match goal with
  | |- exists b, (Return (Some ?a), _) = _ /\ _ =>
      exists a; split; [reflexivity|]
  end.
  destruct r as [rmode [rw rh] buf].
  apply Nat.eqb_eq in Hfull.
  unfold np.array, PIL.width, PIL.height, PIL.bands, shape_size in *.
  cbn [PIL.mode PIL.size PIL.im fst snd] in *.
  destruct rmode;
    cbn [PIL.convert_RGB PIL.mode PIL.size PIL.im PIL.getmodebands Nat.eqb
         np.shape np.data fst snd fold_right] in *;
    rewrite length_map;
    try (rewrite Hfull; lia).
  rewrite (drop_alpha_length (rw * rh)); lia.
Qed.

Lemma rgba_pixel_tensor_is_well_formed :
  exists image_batch,
    preprocess_image resize_nearest red_rgba [] =
      (Return (Some image_batch), []) /\
    List.length (np.data image_batch) = shape_size (np.shape image_batch).
Proof.
  destruct (resize_nearest_returns red_rgba (IMG_WIDTH, IMG_HEIGHT) eq_refl)
    as [r E].
  destruct (resize_nearest_contract _ _ _ E) as [_ [_ Hc]].
  exact (tensor_size_matches_shape resize_nearest red_rgba r [] E Hc).
Defined.

(** Scaling by 255 is strictly increasing on the 256 sample values. *)
Lemma u8_scaling_table :
  forallb
    (fun i =>
       forallb
         (fun j =>
            implb (i <? j)%nat
              (PrimFloat.ltb
                 (PrimFloat.div (PrimFloat.of_uint63 (Uint63.of_Z (Z.of_nat i))) 255)
                 (PrimFloat.div (PrimFloat.of_uint63 (Uint63.of_Z (Z.of_nat j))) 255)))
         (seq 0 256))
    (seq 0 256) = true.
Proof. vm_compute. reflexivity. Qed.

Lemma u8_to_float_via_nat (b : byte) :
  np.u8_to_float b = PrimFloat.of_uint63 (Uint63.of_Z (Z.of_nat (Byte.to_nat b))).
Proof.
  unfold np.u8_to_float. now rewrite Byte.to_N_via_nat, nat_N_Z.
Qed.

Lemma u8_scaling_increasing (a b : byte) :
  (Byte.to_N a < Byte.to_N b)%N ->
  PrimFloat.ltb (PrimFloat.div (np.u8_to_float a) 255)
                (PrimFloat.div (np.u8_to_float b) 255) = true.
Proof.
  intros Hab. rewrite !u8_to_float_via_nat.
  rewrite !Byte.to_N_via_nat in Hab.
  pose proof (Byte.to_nat_bounded a) as Ha.
  pose proof (Byte.to_nat_bounded b) as Hb.
  pose proof u8_scaling_table as T.
  rewrite forallb_forall in T.
  specialize (T (Byte.to_nat a)). rewrite forallb_forall in T.
  assert (Hia : In (Byte.to_nat a) (seq 0 256)) by (apply in_seq; lia).
  assert (Hib : In (Byte.to_nat b) (seq 0 256)) by (apply in_seq; lia).
  specialize (T Hia (Byte.to_nat b) Hib).
  assert (Hlt : (Byte.to_nat a <? Byte.to_nat b)%nat = true)
    by (apply Nat.ltb_lt; lia).
  now rewrite Hlt in T.
Qed.

(** X4.  Normalisation keeps the shape and the order of the samples: of
    two samples of the uint8 array, the larger one becomes the strictly
    larger float64; the samples 0 and 255 become exactly 0.0 and 1.0. *)
Theorem normalisation_preserves_order :
  forall (image_array : np.ndarray byte) i j a b,
    nth_error (np.data image_array) i = Some a ->
    nth_error (np.data image_array) j = Some b ->
    (Byte.to_N a < Byte.to_N b)%N ->
    np.shape (np.true_divide image_array 255) = np.shape image_array /\
    (exists x y,
       nth_error (np.data (np.true_divide image_array 255)) i = Some x /\
       nth_error (np.data (np.true_divide image_array 255)) j = Some y /\
       PrimFloat.ltb x y = true) /\
    PrimFloat.div (np.u8_to_float x00) 255 = 0%float /\
    PrimFloat.div (np.u8_to_float xff) 255 = 1%float.
Proof.
  intros image_array i j a b Ha Hb Hab.
  split; [reflexivity|]. split; [|split; reflexivity].
  unfold np.true_divide. cbn [np.data].
  rewrite !nth_error_map, Ha, Hb. cbn [option_map].
  eexists _, _. repeat split. now apply u8_scaling_increasing.
Qed.

Lemma dark_sample_below_bright_sample :
  exists x y,
    nth_error (np.data (np.true_divide (np.array red_rgba) 255)) 1 = Some x /\
    nth_error (np.data (np.true_divide (np.array red_rgba) 255)) 0 = Some y /\
    PrimFloat.ltb x y = true.
Proof.
  exact (proj1 (proj2 (normalisation_preserves_order
                         (np.array red_rgba) 1 0 x00 xff
                         eq_refl eq_refl eq_refl))).
Defined.

(** ** Prediction *)

(** X5.  When the classifier returns no row, or an empty first row, the
    indexing [predictions[0][0]] raises inside the [try]: the function
    still runs the forward pass once, writes the index error with
    [st.error] and returns ("Error during prediction", 0.0). *)
Theorem empty_output_is_an_error :
  forall model batch rows w,
    keras.predict model batch = Return [] \/
    keras.predict model batch = Return ([] :: rows) ->
    predict_image_class (Some batch) (Some model) w =
      (Return ("Error during prediction", 0.0%float),
       w ++ [model_predict batch;
             st_error "Error during prediction: index 0 is out of bounds for axis 0 with size 0"]).
Proof.
  intros model batch rows w [H | H]; run_predict; rewrite H; cbn;
    now rewrite <- app_assoc.
Qed.

Lemma no_rows_is_an_error :
  predict_image_class (Some empty_batch)
    (Some {| keras.predict := fun _ => Return [] |}) [] =
    (Return ("Error during prediction", 0.0%float),
     [model_predict empty_batch;
      st_error "Error during prediction: index 0 is out of bounds for axis 0 with size 0"]).
Proof.
  exact (empty_output_is_an_error
           {| keras.predict := fun _ => Return [] |} empty_batch [] []
           (or_introl eq_refl)).
Defined.

(** ** The page *)

Ltac run_ui :=
  unfold columns, column1, column2, ui_bind, ui_ret, ui_lift, show,
    run_core, name_lookup.

Lemma preprocess_image_at_nil resize image_pil :
  (exists image_batch,
      preprocess_image resize image_pil [] = (Return (Some image_batch), []))
  \/
  (exists e,
      resize image_pil (IMG_WIDTH, IMG_HEIGHT) = Raise e /\
      preprocess_image resize image_pil [] =
        (Return None, [st_error ("Error preprocessing image: " ++ str e)])).
Proof.
  destruct (resize image_pil (IMG_WIDTH, IMG_HEIGHT)) as [r|e] eqn:E.
  - left. eexists. exact (preprocess_image_resized _ _ _ [] E).
  - right. exists e. split; [reflexivity|].
    exact (preprocess_image_raised _ _ _ [] E).
Qed.

Lemma predict_image_class_at_nil batch model :
  (exists p rest rows,
      keras.predict model batch = Return ((p :: rest) :: rows) /\
      predict_image_class (Some batch) (Some model) [] =
        (Return (if ge p PREDICTION_THRESHOLD
                 then ("AI-Generated Image", p)
                 else ("Authentic (Real) Image", PrimFloat.sub 1%float p)),
         [model_predict batch]))
  \/
  (classified (Some batch) (Some model) = false /\
   exists msg,
     predict_image_class (Some batch) (Some model) [] =
       (Return ("Error during prediction", 0.0%float),
        [model_predict batch; st_error msg])).
Proof.
  unfold classified.
  destruct (keras.predict model batch) as [[|[|p rest] rows]|e] eqn:E.
  - right. split; [reflexivity|]. eexists. run_predict. rewrite E. reflexivity.
  - right. split; [reflexivity|]. eexists. run_predict. rewrite E. reflexivity.
  - left. exists p, rest, rows. split; [reflexivity|].
    exact (predict_image_class_decides _ _ _ _ _ [] E).
  - right. split; [reflexivity|]. eexists. run_predict. rewrite E. reflexivity.
Qed.

(** The first column, case by case. *)
Lemma column1_runs Image_open st_image uploaded_file pg :
  column1 Image_open st_image uploaded_file pg =
    match uploaded_file with
    | None =>
        (Return (None, None),
         pg ++ [st.subheader "Uploaded Image";
                st.info "Please upload an image using the sidebar."])
    | Some file =>
        match Image_open file with
        | Raise e =>
            (Return (None, None),
             pg ++ [st.subheader "Uploaded Image";
                    st.core (st_error ("Error displaying image: " ++ str e))])
        | Return image =>
            match st_image image with
            | Raise e =>
                (Return (None, Some image),
                 pg ++ [st.subheader "Uploaded Image";
                        st.core (st_error ("Error displaying image: " ++ str e))])
            | Return _ =>
                (Return (Some file, Some image),
                 pg ++ [st.subheader "Uploaded Image";
                        st.image image "Uploaded Image."])
            end
        end
    end.
Proof.
  run_ui. destruct uploaded_file as [file|].
  - destruct (Image_open file) as [image|e].
    + destruct (st_image image) as [u|e]; now rewrite <- app_assoc.
    + now rewrite <- app_assoc.
  - now rewrite <- app_assoc.
Qed.

(** The second column when the button does not lead to a
    classification. *)
Lemma column2_idle resize format_percent uploaded_file image model button pg :
  is_not_None uploaded_file && is_not_None model && button = false ->
  column2 resize format_percent uploaded_file image model button pg =
    (Return tt,
     pg ++ [st.subheader "Prediction Results";
            if is_not_None uploaded_file && is_not_None model
            then st.info "Click the 'Classify Image' button in the sidebar to get the prediction."
            else if is_None model && is_not_None uploaded_file
            then st.core (st_error "Model could not be loaded. Please check the console for errors and ensure the model path is correct.")
            else st.info "Upload an image and click 'Classify Image' to see the results here."]).
Proof.
  intros H. run_ui.
  destruct uploaded_file, model, button; try discriminate;
    cbn; now rewrite <- app_assoc.
Qed.

(** The second column when the button starts a classification. *)
Lemma column2_pressed resize format_percent file image model pg :
  column2 resize format_percent (Some file) (Some image) (Some model) true pg =
    let '(processed, w1) := preprocess_image resize image [] in
    match processed with
    | Raise e =>
        (Raise e, (pg ++ [st.subheader "Prediction Results"]) ++ map st.core w1)
    | Return None =>
        (Return tt, (pg ++ [st.subheader "Prediction Results"]) ++ map st.core w1)
    | Return (Some batch) =>
        let '(result, w2) := predict_image_class (Some batch) (Some model) [] in
        let pg2 := ((pg ++ [st.subheader "Prediction Results"])
                      ++ map st.core w1) ++ map st.core w2 in
        match result with
        | Raise e => (Raise e, pg2)
        | Return (predicted_label, confidence) =>
            (Return tt,
             if shows_prediction predicted_label
             then (pg2 ++
                   [if String.eqb predicted_label "AI-Generated Image"
                    then st.core (st_error ("**Prediction: " ++ predicted_label ++ "**"))
                    else st.success ("**Prediction: " ++ predicted_label ++ "**")])
                  ++ [st.write ("**Confidence:** " ++ format_percent confidence)]
             else pg2 ++ [st.warning "Could not make a prediction due to an error."])
        end
    end.
Proof.
  run_ui. cbn [is_not_None andb].
  destruct (preprocess_image resize image []) as [[[batch|]|e] w1];
    try reflexivity.
  cbn [is_not_None].
  destruct (predict_image_class (Some batch) (Some model) [])
    as [[[predicted_label confidence]|e] w2]; try reflexivity.
  destruct (shows_prediction predicted_label); [|reflexivity].
  cbn [dict_getitem CLASS_LABELS Nat.eqb].
  now destruct (String.eqb predicted_label "AI-Generated Image").
Qed.

(** The second column after a classification that succeeded, that
    failed in the classifier, and that stopped at preprocessing. *)
Lemma column2_verdict resize format_percent file image m batch p rest rows pg :
  preprocess_image resize image [] = (Return (Some batch), []) ->
  keras.predict m batch = Return ((p :: rest) :: rows) ->
  column2 resize format_percent (Some file) (Some image) (Some m) true pg =
    (Return tt,
     pg ++ [st.subheader "Prediction Results";
            st.core (model_predict batch);
            if ge p PREDICTION_THRESHOLD
            then st.core (st_error "**Prediction: AI-Generated Image**")
            else st.success "**Prediction: Authentic (Real) Image**";
            st.write ("**Confidence:** "
                      ++ format_percent
                           (if ge p PREDICTION_THRESHOLD
                            then p else PrimFloat.sub 1 p))]).
Proof.
  intros Hpre Hp. rewrite column2_pressed, Hpre.
  rewrite (predict_image_class_decides _ _ _ _ _ [] Hp).
  destruct (ge p PREDICTION_THRESHOLD); cbv beta iota zeta.
  - change (shows_prediction "AI-Generated Image") with true.
    change (String.eqb "AI-Generated Image" "AI-Generated Image") with true.
    cbv iota. cbn [map app]. rewrite app_nil_r, <- !app_assoc. reflexivity.
  - change (shows_prediction "Authentic (Real) Image") with true.
    change (String.eqb "Authentic (Real) Image" "AI-Generated Image") with false.
    cbv iota. cbn [map app]. rewrite app_nil_r, <- !app_assoc. reflexivity.
Qed.

Lemma column2_warning resize format_percent file image m batch msg pg :
  preprocess_image resize image [] = (Return (Some batch), []) ->
  predict_image_class (Some batch) (Some m) [] =
    (Return ("Error during prediction", 0.0%float),
     [model_predict batch; st_error msg]) ->
  column2 resize format_percent (Some file) (Some image) (Some m) true pg =
    (Return tt,
     pg ++ [st.subheader "Prediction Results";
            st.core (model_predict batch);
            st.core (st_error msg);
            st.warning "Could not make a prediction due to an error."]).
Proof.
  intros Hpre Hrun. rewrite column2_pressed, Hpre, Hrun.
  cbv beta iota zeta.
  change (shows_prediction "Error during prediction") with false.
  cbv iota. cbn [map app]. rewrite app_nil_r, <- !app_assoc. reflexivity.
Qed.

Lemma column2_stops resize format_percent file image m w1 pg :
  preprocess_image resize image [] = (Return None, w1) ->
  column2 resize format_percent (Some file) (Some image) (Some m) true pg =
    (Return tt, pg ++ st.subheader "Prediction Results" :: map st.core w1).
Proof.
  intros Hpre. rewrite column2_pressed, Hpre. now rewrite <- app_assoc.
Qed.

(** Close a case in which the second column only shows a notice. *)
Ltac idle_column Hidle :=
  match goal with
  | |- exists _ _, column2 _ _ ?up ?img _ _ (_ ++ [_; ?first]) = _ /\ _ =>
      let f0 := fresh "f" in
      let r0 := fresh "r" in
      let E := fresh "E" in
      let Hf := fresh "Hf" in
      let Hr := fresh "Hr" in
      destruct (Hidle first up img) as [f0 [r0 [E [Hf Hr]]]];
      [ reflexivity
      | eauto 7
      | exists f0, r0; split; [exact E|]; split; [exact Hf|];
        destruct Hr as [Hr|Hr]; [left | right; left]; exact Hr ]
  end.

(** Every run of the two columns, with what it leaves on the page: the
    two subheaders, one element in the first column, and in the second
    column either a single notice or the trace of a classification. *)
Lemma columns_page resize Image_open st_image format_percent
      model uploaded_file button pg :
  exists first rest,
    columns resize Image_open st_image format_percent
            model uploaded_file button pg =
      (Return tt,
       pg ++ st.subheader "Uploaded Image" :: first
             :: st.subheader "Prediction Results" :: rest) /\
    ((exists s, first = st.info s) \/
     (exists s, first = st.core (st_error s)) \/
     (exists img s, first = st.image img s)) /\
    ((exists s, rest = [st.info s]) \/
     (exists s, rest = [st.core (st_error s)]) \/
     (exists file image m batch,
         uploaded_file = Some file /\ model = Some m /\ button = true /\
         Image_open file = Return image /\ st_image image = Return tt /\
         fst (preprocess_image resize image []) = Return (Some batch) /\
         ((exists msg,
              classified (Some batch) (Some m) = false /\
              rest = [st.core (model_predict batch);
                      st.core (st_error msg);
                      st.warning "Could not make a prediction due to an error."])
          \/
          (exists verdict s s',
              classified (Some batch) (Some m) = true /\
              (verdict = st.core (st_error s) \/ verdict = st.success s) /\
              rest = [st.core (model_predict batch); verdict; st.write s'])))).
Proof.
  unfold columns, ui_bind. rewrite column1_runs.
  assert (Hidle : forall first up img,
             is_not_None up && is_not_None model && button = false ->
             ((exists s, first = st.info s) \/
              (exists s, first = st.core (st_error s)) \/
              (exists img s, first = st.image img s)) ->
             exists first0 rest,
               column2 resize format_percent up img model button
                 (pg ++ [st.subheader "Uploaded Image"; first]) =
               (Return tt,
                pg ++ st.subheader "Uploaded Image" :: first0
                      :: st.subheader "Prediction Results" :: rest) /\
               ((exists s, first0 = st.info s) \/
                (exists s, first0 = st.core (st_error s)) \/
                (exists img s, first0 = st.image img s)) /\
               ((exists s, rest = [st.info s]) \/
                (exists s, rest = [st.core (st_error s)]))).
  { intros first up img Hc Hfirst.
    rewrite (column2_idle _ _ _ _ _ _ _ Hc). rewrite <- app_assoc.
    eexists first, _. split; [reflexivity|]. split; [assumption|].
    destruct (is_not_None up && is_not_None model);
      [|destruct (is_None model && is_not_None up)]; eauto. }
  destruct uploaded_file as [file|]; cbn [fst snd].
  - destruct (Image_open file) as [image|e] eqn:Eopen.
    + destruct (st_image image) as [[]|e] eqn:Eshow; cbn [fst snd].
      * destruct model as [m|]; [destruct button|].
        -- (* the classification is started *)
           exists (st.image image "Uploaded Image.").
           destruct (preprocess_image_at_nil resize image)
             as [[batch Hpre] | [e [_ Hpre]]].
           ++ assert (Hfst : fst (preprocess_image resize image [])
                             = Return (Some batch)) by now rewrite Hpre.
              destruct (predict_image_class_at_nil batch m)
                as [[p [rest' [rows [Hp Hrun]]]] | [Hno [msg Hrun]]].
              ** rewrite (column2_verdict _ _ _ _ _ _ _ _ _ _ Hpre Hp).
                 rewrite <- app_assoc.
                 eexists. split; [reflexivity|].
                 split; [right; right; eauto|].
                 right; right. exists file, image, m, batch.
                 repeat (split; [first [reflexivity | assumption]|]).
                 right.
                 assert (Hyes : classified (Some batch) (Some m) = true)
                   by (unfold classified; now rewrite Hp).
                 destruct (ge p PREDICTION_THRESHOLD);
                   eexists _, _, _; (split; [exact Hyes|]);
                   (split; [|reflexivity]); [left | right]; reflexivity.
              ** rewrite (column2_warning _ _ _ _ _ _ _ _ Hpre Hrun).
                 rewrite <- app_assoc.
                 eexists. split; [reflexivity|].
                 split; [right; right; eauto|].
                 right; right. exists file, image, m, batch.
                 repeat (split; [first [reflexivity | assumption]|]).
                 left. exists msg. now split.
           ++ rewrite (column2_stops _ _ _ _ _ _ _ Hpre).
              rewrite <- app_assoc.
              eexists. split; [reflexivity|].
              split; [right; right; eauto|].
              right; left. eexists. reflexivity.
        -- idle_column Hidle.
        -- idle_column Hidle.
      * idle_column Hidle.
    + idle_column Hidle.
  - idle_column Hidle.
Qed.

(** X6.  A run of the two columns never raises, whatever the upload, the
    model, the button and the behaviour of Pillow, Streamlit's image
    widget and the classifier: the variable [image] is assigned whenever
    it is read, and every failure ends up as an element of the page.
    What was on the page before stays in front. *)
Theorem columns_never_raise :
  forall resize Image_open st_image format_percent
         model uploaded_file button pg,
    exists shown,
      columns resize Image_open st_image format_percent
              model uploaded_file button pg = (Return tt, pg ++ shown).
Proof.
  intros.
  destruct (columns_page resize Image_open st_image format_percent
              model uploaded_file button pg) as [first [rest [E _]]].
  eexists. exact E.
Qed.

(** X7.  The branch [elif model is None] under
    [if uploaded_file is not None and model is not None] cannot be taken:
    no run shows the warning "Model not loaded. ...". *)
Theorem model_not_loaded_warning_never_shown :
  forall resize Image_open st_image format_percent
         model uploaded_file button pg,
    exists shown,
      columns resize Image_open st_image format_percent
              model uploaded_file button pg = (Return tt, pg ++ shown) /\
      ~ In (st.warning "Model not loaded. Please check the `MODEL_PATH` and ensure the model file exists.")
           shown.
Proof.
  intros.
  destruct (columns_page resize Image_open st_image format_percent
              model uploaded_file button pg)
    as [first [rest [E [Hfirst Hrest]]]].
  eexists. split; [exact E|].
  cbn [In]. intros [H | [H | [H | H]]]; try discriminate.
  - destruct Hfirst as [[s ->] | [[s ->] | [img [s ->]]]]; discriminate.
  - destruct Hrest as [[s ->] | [[s ->] | Hrun]].
    + destruct H as [H | []]; discriminate.
    + destruct H as [H | []]; discriminate.
    + destruct Hrun as [file [image [m [batch [_ [_ [_ [_ [_ [_ Hrun]]]]]]]]]].
      destruct Hrun as [[msg [_ ->]] | [verdict [s [s' [_ [Hv ->]]]]]];
        cbn [In] in H.
      * destruct H as [H | [H | [H | []]]]; discriminate.
      * destruct H as [H | [H | [H | []]]]; try discriminate.
        destruct Hv as [-> | ->]; discriminate.
Qed.

(** X8.  A run performs at most one forward pass of the classifier, and
    only when a file was uploaded, opened and shown, the model is loaded,
    the button was pressed and preprocessing returned a tensor; the pass
    is made on that tensor. *)
Theorem classifier_runs_at_most_once :
  forall resize Image_open st_image format_percent
         model uploaded_file button pg,
    exists shown,
      columns resize Image_open st_image format_percent
              model uploaded_file button pg = (Return tt, pg ++ shown) /\
      (forward_passes shown = [] \/
       exists file image m batch,
         uploaded_file = Some file /\ model = Some m /\ button = true /\
         Image_open file = Return image /\ st_image image = Return tt /\
         fst (preprocess_image resize image []) = Return (Some batch) /\
         forward_passes shown = [batch]).
Proof.
  intros.
  destruct (columns_page resize Image_open st_image format_percent
              model uploaded_file button pg)
    as [first [rest [E [Hfirst Hrest]]]].
  eexists. split; [exact E|].
  assert (Hhead : forall tail,
             forward_passes
               (st.subheader "Uploaded Image" :: first
                  :: st.subheader "Prediction Results" :: tail)
             = forward_passes tail).
  { intros tail.
    destruct Hfirst as [[s ->] | [[s ->] | [img [s ->]]]]; reflexivity. }
  rewrite Hhead.
  destruct Hrest as [[s ->] | [[s ->] | Hrun]]; try (left; reflexivity).
  destruct Hrun as [file [image [m [batch [H1 [H2 [H3 [H4 [H5 [H6 Hrun]]]]]]]]]].
  right. exists file, image, m, batch.
  repeat (split; [assumption|]).
  destruct Hrun as [[msg [_ ->]] | [verdict [s [s' [_ [Hv ->]]]]]].
  - reflexivity.
  - destruct Hv as [-> | ->]; reflexivity.
Qed.

Lemma preprocess_image_at_nil_some resize image batch :
  fst (preprocess_image resize image []) = Return (Some batch) ->
  preprocess_image resize image [] = (Return (Some batch), []).
Proof.
  intros H.
  destruct (preprocess_image_at_nil resize image)
    as [[b Hb] | [e [_ He]]]; rewrite ?Hb, ?He in *; cbn [fst] in H.
  - now injection H as ->.
  - discriminate.
Qed.

(** X9.  From upload to verdict: when the file opens and is shown,
    preprocessing returns a tensor and the classifier answers [p] on it,
    the page shows the picture, the forward pass, one verdict box and the
    confidence line.  The box is the red [st.error] box with the
    AI-Generated label when [p >= 0.5] and the green [st.success] box
    with the Authentic label otherwise, and the number formatted is [p],
    respectively [1 - p]. *)
Theorem verdict_page :
  forall resize Image_open st_image format_percent
         file image m batch p rest rows pg,
    Image_open file = Return image ->
    st_image image = Return tt ->
    fst (preprocess_image resize image []) = Return (Some batch) ->
    keras.predict m batch = Return ((p :: rest) :: rows) ->
    columns resize Image_open st_image format_percent
            (Some m) (Some file) true pg =
      (Return tt,
       pg ++ [st.subheader "Uploaded Image";
              st.image image "Uploaded Image.";
              st.subheader "Prediction Results";
              st.core (model_predict batch);
              if ge p PREDICTION_THRESHOLD
              then st.core (st_error "**Prediction: AI-Generated Image**")
              else st.success "**Prediction: Authentic (Real) Image**";
              st.write ("**Confidence:** "
                        ++ format_percent
                             (if ge p PREDICTION_THRESHOLD
                              then p else PrimFloat.sub 1 p))]).
Proof.
  intros resize Image_open st_image format_percent
         file image m batch p rest rows pg
         Hopen Hshow Hpre Hp.
  apply preprocess_image_at_nil_some in Hpre.
  unfold columns, ui_bind. rewrite column1_runs, Hopen, Hshow.
  cbn [fst snd].
  rewrite (column2_verdict _ _ _ _ _ _ _ _ _ _ Hpre Hp).
  now rewrite <- app_assoc.
Qed.

Lemma authentic_verdict_is_green :
  exists batch,
    columns resize_nearest ScriptExamples.open_red ScriptExamples.show_ok
            ScriptExamples.format_stub
            (Some (constant_model 0.37%float)) (Some ScriptExamples.a_file)
            true [] =
      (Return tt,
       [st.subheader "Uploaded Image";
        st.image red_rgba "Uploaded Image.";
        st.subheader "Prediction Results";
        st.core (model_predict batch);
        st.success "**Prediction: Authentic (Real) Image**";
        st.write "**Confidence:** high"]).
Proof.
  destruct (preprocess_image_at_nil resize_nearest red_rgba)
    as [[batch Hb] | [e [He _]]]; [|discriminate He].
  exists batch.
  exact (verdict_page resize_nearest ScriptExamples.open_red
           ScriptExamples.show_ok ScriptExamples.format_stub
           ScriptExamples.a_file red_rgba (constant_model 0.37%float)
           batch 0.37%float [] [] []
           eq_refl eq_refl (f_equal fst Hb) eq_refl).
Defined.

(** X10.  When the upload cannot be opened or shown, the first column
    reports it and the second column falls back to the invitation to
    upload, whatever the button and the model: nothing is classified, and
    a model that failed to load is not mentioned either. *)
Theorem display_failure_page :
  forall resize Image_open st_image format_percent
         model file button e pg,
    Image_open file = Raise e \/
    (exists image, Image_open file = Return image /\ st_image image = Raise e) ->
    columns resize Image_open st_image format_percent
            model (Some file) button pg =
      (Return tt,
       pg ++ [st.subheader "Uploaded Image";
              st.core (st_error ("Error displaying image: " ++ str e));
              st.subheader "Prediction Results";
              st.info "Upload an image and click 'Classify Image' to see the results here."]).
Proof.
  intros resize Image_open st_image format_percent model file button e pg H.
  unfold columns, ui_bind. rewrite column1_runs.
  destruct H as [-> | [image [-> ->]]]; cbn [fst snd];
    (rewrite column2_idle by reflexivity);
    cbn [is_not_None is_None andb negb];
    rewrite <- app_assoc;
    destruct model; reflexivity.
Qed.

Lemma unreadable_upload_page :
  columns resize_nearest ScriptExamples.open_fails ScriptExamples.show_ok
          ScriptExamples.format_stub None (Some ScriptExamples.a_file) true [] =
    (Return tt,
     [st.subheader "Uploaded Image";
      st.core (st_error "Error displaying image: cannot identify image file");
      st.subheader "Prediction Results";
      st.info "Upload an image and click 'Classify Image' to see the results here."]).
Proof.
  exact (display_failure_page resize_nearest ScriptExamples.open_fails
           ScriptExamples.show_ok ScriptExamples.format_stub
           None ScriptExamples.a_file true
           (Exception "UnidentifiedImageError" "cannot identify image file")
           [] (or_introl eq_refl)).
Defined.

(** X11.  When preprocessing fails after the button was pressed, the
    second column shows the preprocessing error and nothing else: no
    verdict, no confidence, no warning, and the classifier is not run. *)
Theorem preprocessing_failure_page :
  forall resize Image_open st_image format_percent
         m file image e pg,
    Image_open file = Return image ->
    st_image image = Return tt ->
    resize image (IMG_WIDTH, IMG_HEIGHT) = Raise e ->
    columns resize Image_open st_image format_percent
            (Some m) (Some file) true pg =
      (Return tt,
       pg ++ [st.subheader "Uploaded Image";
              st.image image "Uploaded Image.";
              st.subheader "Prediction Results";
              st.core (st_error ("Error preprocessing image: " ++ str e))]).
Proof.
  intros resize Image_open st_image format_percent m file image e pg
         Hopen Hshow Hres.
  unfold columns, ui_bind. rewrite column1_runs, Hopen, Hshow.
  cbn [fst snd].
  rewrite (column2_stops _ _ _ _ _ _ _ (preprocess_image_raised _ _ _ [] Hres)).
  now rewrite <- app_assoc.
Qed.

Lemma unresizable_upload_page :
  columns ScriptExamples.resize_fails ScriptExamples.open_red
          ScriptExamples.show_ok ScriptExamples.format_stub
          (Some (constant_model 0.9%float)) (Some ScriptExamples.a_file) true [] =
    (Return tt,
     [st.subheader "Uploaded Image";
      st.image red_rgba "Uploaded Image.";
      st.subheader "Prediction Results";
      st.core (st_error "Error preprocessing image: image file is truncated")]).
Proof.
  exact (preprocessing_failure_page ScriptExamples.resize_fails
           ScriptExamples.open_red ScriptExamples.show_ok
           ScriptExamples.format_stub (constant_model 0.9%float)
           ScriptExamples.a_file red_rgba
           (Exception "OSError" "image file is truncated") []
           eq_refl eq_refl eq_refl).
Defined.

(** X12.  When the classifier raises or returns an output without an
    element [0][0], the second column shows the forward pass, the
    "Error during prediction" message and then the warning "Could not
    make a prediction due to an error."; no verdict is shown. *)
Theorem prediction_failure_page :
  forall resize Image_open st_image format_percent
         m file image batch pg,
    Image_open file = Return image ->
    st_image image = Return tt ->
    fst (preprocess_image resize image []) = Return (Some batch) ->
    classified (Some batch) (Some m) = false ->
    exists msg,
      columns resize Image_open st_image format_percent
              (Some m) (Some file) true pg =
        (Return tt,
         pg ++ [st.subheader "Uploaded Image";
                st.image image "Uploaded Image.";
                st.subheader "Prediction Results";
                st.core (model_predict batch);
                st.core (st_error ("Error during prediction: " ++ msg));
                st.warning "Could not make a prediction due to an error."]).
Proof.
  intros resize Image_open st_image format_percent m file image batch pg
         Hopen Hshow Hpre Hno.
  apply preprocess_image_at_nil_some in Hpre.
  unfold columns, ui_bind. rewrite column1_runs, Hopen, Hshow.
  cbn [fst snd].
  assert (Hrun : exists msg,
             predict_image_class (Some batch) (Some m) [] =
               (Return ("Error during prediction", 0.0%float),
                [model_predict batch;
                 st_error ("Error during prediction: " ++ msg)])).
  { unfold classified in Hno.
    destruct (keras.predict m batch) as [[|[|p rest] rows]|e] eqn:E;
      try discriminate;
      eexists; run_predict; rewrite E; reflexivity. }
  destruct Hrun as [msg Hrun]. exists msg.
  rewrite (column2_warning _ _ _ _ _ _ _ _ Hpre Hrun).
  now rewrite <- app_assoc.
Qed.

Lemma failing_classifier_page :
  exists batch msg,
    columns resize_nearest ScriptExamples.open_red ScriptExamples.show_ok
            ScriptExamples.format_stub
            (Some failing_model) (Some ScriptExamples.a_file) true [] =
      (Return tt,
       [st.subheader "Uploaded Image";
        st.image red_rgba "Uploaded Image.";
        st.subheader "Prediction Results";
        st.core (model_predict batch);
        st.core (st_error ("Error during prediction: " ++ msg));
        st.warning "Could not make a prediction due to an error."]).
Proof.
  destruct (preprocess_image_at_nil resize_nearest red_rgba)
    as [[batch Hb] | [e [He _]]]; [|discriminate He].
  exists batch.
  exact (prediction_failure_page resize_nearest ScriptExamples.open_red
           ScriptExamples.show_ok ScriptExamples.format_stub
           failing_model ScriptExamples.a_file red_rgba batch []
           eq_refl eq_refl (f_equal fst Hb) eq_refl).
Defined.

(** X13.  When the model cannot be loaded, [load_trained_model] hands
    [None] to the script; for an upload that opens and shows, the second
    column then reports "Model could not be loaded. ..." whether or not
    the button is pressed, and nothing is preprocessed or classified. *)
Theorem missing_model_page :
  forall load_model resize Image_open st_image format_percent
         file image button e w pg,
    load_model MODEL_PATH = Raise e ->
    Image_open file = Return image ->
    st_image image = Return tt ->
    exists w',
      load_trained_model load_model MODEL_PATH w = (Return None, w') /\
      columns resize Image_open st_image format_percent
              None (Some file) button pg =
        (Return tt,
         pg ++ [st.subheader "Uploaded Image";
                st.image image "Uploaded Image.";
                st.subheader "Prediction Results";
                st.core (st_error "Model could not be loaded. Please check the console for errors and ensure the model path is correct.")]).
Proof.
  intros load_model resize Image_open st_image format_percent
         file image button e w pg Hload Hopen Hshow.
  eexists. split.
  - unfold load_trained_model, try_except, bind, lift, emit, ret.
    rewrite Hload. reflexivity.
  - unfold columns, ui_bind. rewrite column1_runs, Hopen, Hshow.
    cbn [fst snd]. rewrite column2_idle by reflexivity.
    now rewrite <- app_assoc.
Qed.

Lemma missing_model_file_page :
  exists w',
    load_trained_model ScriptExamples.load_missing MODEL_PATH [] =
      (Return None, w') /\
    columns resize_nearest ScriptExamples.open_red ScriptExamples.show_ok
            ScriptExamples.format_stub None (Some ScriptExamples.a_file) true [] =
      (Return tt,
       [st.subheader "Uploaded Image";
        st.image red_rgba "Uploaded Image.";
        st.subheader "Prediction Results";
        st.core (st_error "Model could not be loaded. Please check the console for errors and ensure the model path is correct.")]).
Proof.
  exact (missing_model_page ScriptExamples.load_missing resize_nearest
           ScriptExamples.open_red ScriptExamples.show_ok
           ScriptExamples.format_stub ScriptExamples.a_file red_rgba true
           (Exception "OSError"
              ("No file or directory found at " ++ MODEL_PATH))
           [] [] eq_refl eq_refl eq_refl).
Defined.
